(** * Nelius launcher: the download pipeline and the launch command

    A shallow embedding of [utility/download_mc.py] and
    [prototyping/nelius_launch.py].

    - JSON documents are values of [json]; the Python operations the two
      scripts apply to them ([d[k]], [d.get(k, default)], [k in d],
      iteration, truthiness) are total functions into [result], an
      exception being a value of [exn].
    - Paths are Python strings; [os.path] is the POSIX implementation
      ([posixpath]): [join], [dirname], [normpath], [abspath], [relpath].
    - The file system is a finite map from absolute normalised paths (lists
      of components) to nodes; the network is a function from URLs to
      responses; both live in a [World] that is threaded through the code
      together with the trace of what happened and the queue of the thread
      pool.  The pool runs a queued task whenever the schedule, a parameter
      of every run, says so.

    What the model leaves out: the [print] calls and the timing; symbolic
    links (a path denotes the node at its normal form, [..] being resolved
    as [normpath] does); interleavings inside one [download_file] call,
    which runs from its existence test to its last write in one step of
    the thread that calls it. *)

From Stdlib Require Import ZArith Ascii String List Lia.
From stdpp Require Import base option list strings gmap fin_maps.

Local Open Scope Z_scope.
#[local] Set Warnings "-register-all".
#[local] Set Warnings "-automation".


(** ** Exceptions and results *)

Inductive exn : Type :=
| ValueError (msg : string)
| KeyError (key : string)
| TypeError
| AttributeError
| AssertionError (msg : string)
| RequestException
| HTTPError (status : Z)
| JSONDecodeError
| OSError.

Inductive result (A : Type) : Type :=
| Ok (a : A)
| Raise (e : exn).

Arguments Ok {A} a.
Arguments Raise {A} e.

#[global] Instance result_ret : MRet result := fun A a => Ok a.

#[global] Instance result_bind : MBind result := fun A B f r =>
  match r with
  | Ok a => f a
  | Raise e => Raise e
  end.

(** ** JSON values, as [json.loads] and [Response.json] build them

    An object is the list of its items in insertion order; a key occurs at
    most once in a parsed object, and [assoc] takes its first binding.
    Numbers are integers: no field either script reads is numeric. *)

Inductive json : Type :=
| JNull
| JBool (b : bool)
| JNum (n : Z)
| JStr (s : string)
| JArr (items : list json)
| JObj (items : list (string * json)).

Fixpoint assoc (k : string) (items : list (string * json)) : option json :=
  match items with
  | [] => None
  | (k', v) :: rest => if String.eqb k k' then Some v else assoc k rest
  end.

(** [v == s] for a Python string [s]. *)
Definition is_str (s : string) (v : json) : bool :=
  match v with
  | JStr s' => String.eqb s' s
  | _ => false
  end.

(** [s in t] on strings: [s] occurs in [t]. *)
Definition occurs_in (s t : string) : bool :=
  match String.index 0 s t with
  | Some _ => true
  | None => false
  end.

(** The characters of a string as one-character strings. *)
Fixpoint chars (s : string) : list string :=
  match s with
  | EmptyString => []
  | String c s' => String c EmptyString :: chars s'
  end.

(** [v[k]] with a string key. *)
Definition py_getitem (v : json) (k : string) : result json :=
  match v with
  | JObj items =>
      match assoc k items with
      | Some x => Ok x
      | None => Raise (KeyError k)
      end
  | _ => Raise TypeError
  end.

(** [v.get(k, default)]: only a dict has the method. *)
Definition py_get (v : json) (k : string) (default : json) : result json :=
  match v with
  | JObj items =>
      match assoc k items with
      | Some x => Ok x
      | None => Ok default
      end
  | _ => Raise AttributeError
  end.

(** [k in v]. *)
Definition py_contains (k : string) (v : json) : result bool :=
  match v with
  | JObj items => Ok (bool_decide (is_Some (assoc k items)))
  | JArr items => Ok (existsb (is_str k) items)
  | JStr s => Ok (occurs_in k s)
  | _ => Raise TypeError
  end.

(** [for x in v]: the elements of a list, the keys of a dict, the
    characters of a string. *)
Definition py_iter (v : json) : result (list json) :=
  match v with
  | JArr items => Ok items
  | JObj items => Ok (map (fun kv => JStr (fst kv)) items)
  | JStr s => Ok (map JStr (chars s))
  | _ => Raise TypeError
  end.

(** [v.values()]. *)
Definition py_values (v : json) : result (list json) :=
  match v with
  | JObj items => Ok (map snd items)
  | _ => Raise AttributeError
  end.

(** Truth value of [v] in [if v:]. *)
Definition truthy (v : json) : bool :=
  match v with
  | JNull => false
  | JBool b => b
  | JNum n => negb (n =? 0)
  | JStr s => negb (String.eqb s "")
  | JArr items => match items with [] => false | _ => true end
  | JObj items => match items with [] => false | _ => true end
  end.

(** ** [os.path] on POSIX *)

Definition sep : ascii := "/"%char.

Definition startswith_sep (s : string) : bool :=
  match s with
  | String c _ => Ascii.eqb c sep
  | EmptyString => false
  end.

Fixpoint endswith_sep (s : string) : bool :=
  match s with
  | EmptyString => false
  | String c EmptyString => Ascii.eqb c sep
  | String _ s' => endswith_sep s'
  end.

(** [os.path.join(a, b)]; [join(a, b, c)] is [join (join a b) c]. *)
Definition join (a b : string) : string :=
  if startswith_sep b then b
  else if String.eqb a "" || endswith_sep a then a +:+ b
  else a +:+ "/" +:+ b.

(** [s.split("/")]. *)
Fixpoint split_sep (s : string) : list string :=
  match s with
  | EmptyString => [""]
  | String c s' =>
      if Ascii.eqb c sep then "" :: split_sep s'
      else match split_sep s' with
           | x :: xs => String c x :: xs
           | [] => [String c ""]
           end
  end.

(** ["/".join(comps)]. *)
Fixpoint join_sep (comps : list string) : string :=
  match comps with
  | [] => ""
  | [x] => x
  | x :: rest => x +:+ "/" +:+ join_sep rest
  end.

Definition nonempty (s : string) : bool := negb (String.eqb s "").

(** The loop of [posixpath.normpath] over the components, [acc] being
    [new_comps] with its last element first. *)
Fixpoint norm_comps (rooted : bool) (comps acc : list string) : list string :=
  match comps with
  | [] => rev acc
  | comp :: rest =>
      if String.eqb comp "" || String.eqb comp "." then norm_comps rooted rest acc
      else if negb (String.eqb comp "..") then norm_comps rooted rest (comp :: acc)
      else match acc with
           | [] => if rooted then norm_comps rooted rest acc
                   else norm_comps rooted rest (comp :: acc)
           | top :: acc' =>
               if String.eqb top ".." then norm_comps rooted rest (comp :: acc)
               else norm_comps rooted rest acc'
           end
  end.

(** Number of leading slashes [normpath] keeps: 0, 1, or 2 for exactly two. *)
Definition initial_slashes (p : string) : string :=
  match p with
  | String a (String b (String c _)) =>
      if Ascii.eqb a sep then
        if Ascii.eqb b sep then (if Ascii.eqb c sep then "/" else "//") else "/"
      else ""
  | String a (String b EmptyString) =>
      if Ascii.eqb a sep then (if Ascii.eqb b sep then "//" else "/") else ""
  | String a EmptyString => if Ascii.eqb a sep then "/" else ""
  | EmptyString => ""
  end.

Definition normpath (p : string) : string :=
  if String.eqb p "" then "."
  else
    let slashes := initial_slashes p in
    let comps := norm_comps (nonempty slashes) (split_sep p) [] in
    let q := slashes +:+ join_sep comps in
    if String.eqb q "" then "." else q.

(** [os.path.abspath] in the working directory [cwd]. *)
Definition abspath (cwd p : string) : string :=
  normpath (if startswith_sep p then p else join cwd p).

(** The components of the absolute path: the key of [p] in the file system. *)
Definition components (cwd p : string) : list string :=
  filter (fun x => Is_true (nonempty x)) (split_sep (abspath cwd p)).

Fixpoint common_prefix_len (a b : list string) : nat :=
  match a, b with
  | x :: a', y :: b' => if String.eqb x y then S (common_prefix_len a' b') else O
  | _, _ => O
  end.

(** [os.path.relpath(path, start)]; the caller checks that [path] is not
    empty ([relpath] raises [ValueError] there). *)
Definition relpath (cwd path start : string) : string :=
  let start_list := components cwd start in
  let path_list := components cwd path in
  let i := common_prefix_len start_list path_list in
  let rel_list := repeat ".." (length start_list - i)%nat ++ drop i path_list in
  match rel_list with
  | [] => "."
  | _ => join_sep rel_list
  end.

Fixpoint drop_until_sep (l : list ascii) : list ascii :=
  match l with
  | [] => []
  | c :: l' => if Ascii.eqb c sep then l else drop_until_sep l'
  end.

Fixpoint drop_seps (l : list ascii) : list ascii :=
  match l with
  | [] => []
  | c :: l' => if Ascii.eqb c sep then drop_seps l' else l
  end.

(** [os.path.dirname]: everything up to the last slash, trailing slashes
    stripped unless the head is nothing but slashes.  The lists are the
    path read backwards. *)
Definition dirname (p : string) : string :=
  let head := drop_until_sep (rev (list_ascii_of_string p)) in
  string_of_list_ascii
    (rev (match drop_seps head with [] => head | stripped => stripped end)).

(** ** The world: file system, network, trace and thread pool *)

(** What a file or a response holds: a JSON document, identified with the
    value [json.loads] returns for it, or bytes that are not JSON. *)
Inductive body : Type :=
| Doc (j : json)
| Blob (data : string).

(** What a GET gives: no response at all (the request raises), a response
    whose body arrives whole, or one whose body stream breaks after
    [received] (reading it raises). *)
Inductive response : Type :=
| ConnectionFailed
| Complete (status : Z) (content : body)
| Truncated (status : Z) (received : string).

Inductive node : Type :=
| File (content : body)
| Dir.

Abbreviation path := (list string).

(** A task of the pool: the arguments of one [download_file] call. *)
Abbreviation task := (json * string)%type.

Inductive event : Type :=
| EFetch (url : string)              (* requests.get(url) was sent *)
| EDownload (url dest : string)      (* session.get(url) was sent by download_file *)
| ESubmit (t : task)                 (* executor.submit(download_file, ...) *)
| EDone (t : task) (r : result unit) (* a task of the pool returned or raised *)
| EMeta (dest : string) (doc : json) (* the descriptor was written *).

Record World : Type := mkWorld {
  fs : gmap path node;
  trace : list event;
  pending : list task;
  sched : list (list nat)
}.

(** What a run is given: the host, the working directory, the network, the
    command line, and [str] of a value that is not a string. *)
Record Env : Type := mkEnv {
  platform_system : string;
  getcwd : string;
  net : string → response;
  repr : json → string;
  output_dir : string;
  mc_version : string
}.

Definition M (A : Type) : Type := World → result A * World.

#[global] Instance M_ret : MRet M := fun A a w => (Ok a, w).

#[global] Instance M_bind : MBind M := fun A B f m w =>
  match m w with
  | (Ok a, w') => f a w'
  | (Raise e, w') => (Raise e, w')
  end.

Definition raise {A} (e : exn) : M A := fun w => (Raise e, w).

Definition lift {A} (r : result A) : M A := fun w => (r, w).

Definition log (e : event) : M unit := fun w =>
  (Ok tt, mkWorld (fs w) (trace w ++ [e]) (pending w) (sched w)).

Definition set_fs (f : gmap path node) (w : World) : World :=
  mkWorld f (trace w) (pending w) (sched w).

Definition set_pending (q : list task) (w : World) : World :=
  mkWorld (fs w) (trace w) q (sched w).

Definition MANIFEST_URL : string :=
  "https://piston-meta.mojang.com/mc/game/version_manifest_v2.json".
Definition RESOURCES_BASE_URL : string :=
  "https://resources.download.minecraft.net".

(** [f"{v}"]. *)
Definition py_str (rp : json → string) (v : json) : string :=
  match v with
  | JStr s => s
  | _ => rp v
  end.

(** [os.path.join(a, v)]: [v] must be a string. *)
Definition os_path_join (a : string) (v : json) : result string :=
  match v with
  | JStr b => Ok (join a b)
  | _ => Raise TypeError
  end.

(** [raise_for_status]: a 4xx or 5xx status raises. *)
Definition raise_for_status (status : Z) : result unit :=
  if (400 <=? status) && (status <? 600) then Raise (HTTPError status) else Ok tt.

(** ** The records of [download_mc.py]

    A dataclass does not check its annotations: a field holds whatever
    value the document had there. *)

Record ManifestLatest : Type := mkManifestLatest {
  release : json;
  snapshot : json
}.

Record ManifestVersion : Type := mkManifestVersion {
  mv_id : json;
  mv_type : json;
  mv_url : json
}.

Record Library : Type := mkLibrary {
  library_name : json;
  operating_system : json;
  download_path : json;
  download_url : json
}.

Record VersionData : Type := mkVersionData {
  vd_id : json;
  asset_index_url : json;
  asset_index_id : json;
  client_jar_url : json;
  server_jar_url : json;
  libraries : list Library;
  main_class : json
}.

Record Manifest : Type := mkManifest {
  latest : ManifestLatest;
  versions : list ManifestVersion
}.

(** ** Reading the documents *)

Fixpoint mapM {A B} (f : A → result B) (l : list A) : result (list B) :=
  match l with
  | [] => Ok []
  | x :: rest => y ← f x; ys ← mapM f rest; Ok (y :: ys)
  end.

Definition manifest_version (version : json) : result ManifestVersion :=
  i ← py_getitem version "id";
  t ← py_getitem version "type";
  u ← py_getitem version "url";
  Ok (mkManifestVersion i t u).

(** [get_manifest] after the request. *)
Definition manifest_of (data : json) : result Manifest :=
  raw ← py_getitem data "versions";
  items ← py_iter raw;
  vs ← mapM manifest_version items;
  l ← py_getitem data "latest";
  r ← py_getitem l "release";
  l' ← py_getitem data "latest";
  s ← py_getitem l' "snapshot";
  Ok (mkManifest (mkManifestLatest r s) vs).

(** The [for ... else] of [get_version_data]. *)
Fixpoint find_version (vs : list ManifestVersion) (target_version_id : string)
  : result ManifestVersion :=
  match vs with
  | [] => Raise (ValueError "Invalid version provided: not found")
  | version :: rest =>
      if is_str target_version_id (mv_id version) then Ok version
      else find_version rest target_version_id
  end.

(** The loop over the rules of one library, [system] being the variable of
    that name. *)
Fixpoint scan_rules (rules : list json) (system : json) : result json :=
  match rules with
  | [] => Ok system
  | rule :: rest =>
      has_os ← py_contains "os" rule;
      if (has_os : bool) then
        os ← py_getitem rule "os";
        name ← py_get os "name" (JStr "unspecified");
        scan_rules rest name
      else scan_rules rest system
  end.

(** The body of the loop over the libraries: the [Library] it appends, if
    any. *)
Definition library_of (raw_library : json) : result (option Library) :=
  rules ← py_get raw_library "rules" (JArr []);
  rule_list ← py_iter rules;
  system ← scan_rules rule_list (JStr "unspecified");
  downloads ← py_get raw_library "downloads" (JObj []);
  artifact ← py_get downloads "artifact" JNull;
  if truthy artifact then
    n ← py_getitem raw_library "name";
    p ← py_getitem artifact "path";
    u ← py_getitem artifact "url";
    Ok (Some (mkLibrary n system p u))
  else Ok None.

Fixpoint libraries_of (raw_libraries : list json) : result (list Library) :=
  match raw_libraries with
  | [] => Ok []
  | raw_library :: rest =>
      l ← library_of raw_library;
      ls ← libraries_of rest;
      Ok (match l with Some x => x :: ls | None => ls end)
  end.

(** [get_version_data] after the second request. *)
Definition version_data_of (raw_version_details : json) : result VersionData :=
  raw ← py_get raw_version_details "libraries" (JArr []);
  raw_libraries ← py_iter raw;
  libs ← libraries_of raw_libraries;
  i ← py_getitem raw_version_details "id";
  ai ← py_getitem raw_version_details "assetIndex";
  aurl ← py_getitem ai "url";
  ai' ← py_getitem raw_version_details "assetIndex";
  aid ← py_getitem ai' "id";
  d ← py_getitem raw_version_details "downloads";
  c ← py_getitem d "client";
  curl ← py_getitem c "url";
  d' ← py_getitem raw_version_details "downloads";
  sv ← py_getitem d' "server";
  surl ← py_getitem sv "url";
  mc ← py_getitem raw_version_details "mainClass";
  Ok (mkVersionData i aurl aid curl surl libs mc).

(** The three [continue] tests of [download_minecraft_structure]. *)
Definition skipped_on (host : string) (library : Library) : bool :=
  if is_str "windows" (operating_system library) && negb (String.eqb host "Windows")
  then true
  else if is_str "linux" (operating_system library) && negb (String.eqb host "Linux")
  then true
  else if is_str "osx" (operating_system library) && negb (String.eqb host "Darwin")
  then true
  else false.

(** The URL and the destination of one object of the asset index. A hash
    that is not a string raises, at the slice or at [os.path.join]. *)
Definition object_task (objects_directory : string) (h : json) : result task :=
  match h with
  | JStr s =>
      let url := RESOURCES_BASE_URL +:+ "/" +:+ substring 0 2 s +:+ "/" +:+ s in
      let full_path := join (join objects_directory (substring 0 2 s)) s in
      Ok (JStr url, full_path)
  | _ => Raise TypeError
  end.

Section Run.

Variable E : Env.

Definition key (p : string) : path := components (getcwd E) p.

(** The node at [p]; the root is a directory. *)
Definition node_at (f : gmap path node) (p : string) : option node :=
  match key p with
  | [] => Some Dir
  | k => f !! k
  end.

Definition exists_in (f : gmap path node) (p : string) : bool :=
  if String.eqb p "" then false else bool_decide (is_Some (node_at f p)).

(** [os.path.exists(p)]. *)
Definition path_exists (p : string) : M bool := fun w => (Ok (exists_in (fs w) p), w).

(** The loop of [os.makedirs(_, exist_ok=True)]: every missing directory
    on the way from [done] down through [rest] is created; a file on the
    way stops it. *)
Fixpoint mkdirs (done rest : path) (f : gmap path node) : result unit * gmap path node :=
  match rest with
  | [] => (Ok tt, f)
  | c :: rest' =>
      let p := done ++ [c] in
      match f !! p with
      | Some (File _) => (Raise OSError, f)
      | Some Dir => mkdirs p rest' f
      | None => mkdirs p rest' (<[p := Dir]> f)
      end
  end.

Definition makedirs (p : string) : M unit := fun w =>
  if String.eqb p "" then (Raise OSError, w)
  else let '(r, f) := mkdirs [] (key p) (fs w) in (r, set_fs f w).

Definition parent_is_dir (f : gmap path node) (k : path) : bool :=
  match removelast k with
  | [] => true
  | pk => match f !! pk with
          | Some Dir => true
          | _ => false
          end
  end.

(** [open(p, "w")] followed by the writes: the parent must be a directory
    and [p] must not be one. *)
Definition write_file (p : string) (content : body) : M unit := fun w =>
  if String.eqb p "" then (Raise OSError, w)
  else
    match key p with
    | [] => (Raise OSError, w)
    | k =>
        match fs w !! k with
        | Some Dir => (Raise OSError, w)
        | _ =>
            if parent_is_dir (fs w) k
            then (Ok tt, set_fs (<[k := File content]> (fs w)) w)
            else (Raise OSError, w)
        end
    end.

(** [open(p, "r")] and [read]. *)
Definition read_file (p : string) : M body := fun w =>
  if String.eqb p "" then (Raise OSError, w)
  else
    match key p with
    | [] => (Raise OSError, w)
    | k => match fs w !! k with
           | Some (File c) => (Ok c, w)
           | _ => (Raise OSError, w)
           end
    end.

Definition json_loads (b : body) : result json :=
  match b with
  | Doc j => Ok j
  | Blob _ => Raise JSONDecodeError
  end.

(** [requests.get(url).json()]: the status is not looked at. A URL that is
    not a string has no scheme, the request is not sent. *)
Definition requests_get_json (url : json) : M json :=
  match url with
  | JStr u =>
      log (EFetch u);;
      lift (match net E u with
            | Complete _ content => json_loads content
            | _ => Raise RequestException
            end)
  | _ => raise RequestException
  end.

(** [session.get(url, stream=True)] inside [download_file]. *)
Definition session_get (url : json) (dest_path : string) : M response :=
  match url with
  | JStr u =>
      log (EDownload u dest_path);;
      match net E u with
      | ConnectionFailed => raise RequestException
      | r => mret r
      end
  | _ => raise RequestException
  end.

Definition download_file (url : json) (dest_path : string) : M unit :=
  present ← path_exists dest_path;
  if (present : bool) then mret tt
  else
    makedirs (dirname dest_path);;
    r ← session_get url dest_path;
    match r with
    | Complete status content =>
        lift (raise_for_status status);;
        write_file dest_path content
    | Truncated status received =>
        lift (raise_for_status status);;
        write_file dest_path (Blob received);;
        raise RequestException
    | ConnectionFailed => raise RequestException
    end.

(** *** The thread pool

    A submitted task waits in [pending]. One worker step takes a waiting
    task and runs it to its end; what it returns or raises stays in its
    future, which nobody reads: here it goes to the trace. *)

Definition run_task (t : task) (w : World) : World :=
  let '(r, w') := download_file (fst t) (snd t) w in
  mkWorld (fs w') (trace w' ++ [EDone t r]) (pending w') (sched w').

Definition pool_step (w : World) (i : nat) : World :=
  let q := pending w in
  let k := (i mod length q)%nat in
  match q !! k with
  | Some t => run_task t (set_pending (delete k q) w)
  | None => w
  end.

(** The point where the main thread may lose the processor: the workers
    take the steps the schedule gives them. *)
Definition yield : M unit := fun w =>
  match sched w with
  | [] => (Ok tt, w)
  | picks :: rest =>
      (Ok tt, foldl pool_step (mkWorld (fs w) (trace w) (pending w) rest) picks)
  end.

Definition submit (t : task) : M unit :=
  log (ESubmit t);;
  (fun w => (Ok tt, set_pending (pending w ++ [t]) w));;
  yield.

Fixpoint drain (q : list task) (w : World) : World :=
  match q with
  | [] => w
  | t :: q' => drain q' (run_task t (set_pending q' w))
  end.

(** Leaving [with ThreadPoolExecutor(...) as executor]: [shutdown(wait=True)],
    also when the block raised. *)
Definition with_executor {A} (block : M A) : M A := fun w =>
  let '(r, w1) := block w in
  let '(_, w2) := yield w1 in
  (r, drain (pending w2) w2).

(** ** [download_mc.py] *)

Definition get_manifest : M Manifest :=
  data ← requests_get_json (JStr MANIFEST_URL);
  lift (manifest_of data).

Definition get_version_data (target_version_id : string) : M VersionData :=
  manifest ← get_manifest;
  raw_manifest_version_data ← lift (find_version (versions manifest) target_version_id);
  raw_version_details ← requests_get_json (mv_url raw_manifest_version_data);
  lift (version_data_of raw_version_details).

Definition os_path_relpath (p start : string) : result string :=
  if String.eqb p "" then Raise (ValueError "no path specified")
  else Ok (relpath (getcwd E) p start).

Fixpoint libraries_loop (libraries_directory : string) (libs : list Library)
    (classpath : list string) : M (list string) :=
  match libs with
  | [] => mret classpath
  | library :: rest =>
      if skipped_on (platform_system E) library
      then libraries_loop libraries_directory rest classpath
      else
        dp ← lift (os_path_join libraries_directory (download_path library));
        submit (download_url library, dp);;
        rel ← lift (os_path_relpath dp (output_dir E));
        libraries_loop libraries_directory rest (classpath ++ [rel])
  end.

Fixpoint objects_loop (objects_directory : string) (objects : list json) : M unit :=
  match objects with
  | [] => mret tt
  | object_data :: rest =>
      h ← lift (py_getitem object_data "hash");
      t ← lift (object_task objects_directory h);
      submit t;;
      objects_loop objects_directory rest
  end.

(** The document [json.dump] writes to [nelius.meta]. *)
Definition descriptor (version_data : VersionData) (classpath : list string)
    (assets_dir : string) : json :=
  JObj [("version", JStr (mc_version E));
        ("asset_index_id", asset_index_id version_data);
        ("classpath_relative", JArr (map JStr classpath));
        ("main_class", main_class version_data);
        ("assets_dir", JStr assets_dir)].

(** [with open(dest, "w") as f: json.dump({...}, f)]: the file is opened,
    which empties it, before the dictionary is built. *)
Definition write_meta (dest : string) (version_data : VersionData)
    (classpath : list string) (assets_directory : string) : M unit :=
  write_file dest (Blob "");;
  assets_dir ← lift (os_path_relpath assets_directory (output_dir E));
  let doc := descriptor version_data classpath assets_dir in
  write_file dest (Doc doc);;
  log (EMeta dest doc).

Definition download_minecraft_structure (version_data : VersionData) : M unit :=
  makedirs (output_dir E);;
  let libraries_directory := join (output_dir E) "libraries" in
  let assets_directory := join (output_dir E) "assets" in
  let objects_directory := join assets_directory "objects" in
  let indexes_directory := join assets_directory "indexes" in
  makedirs libraries_directory;;
  makedirs objects_directory;;
  makedirs indexes_directory;;
  submit (client_jar_url version_data, join (output_dir E) "client.jar");;
  classpath ← libraries_loop libraries_directory (libraries version_data) [];
  let asset_index_path :=
    join indexes_directory (py_str (repr E) (asset_index_id version_data) +:+ ".json") in
  download_file (asset_index_url version_data) asset_index_path;;
  yield;;
  content ← read_file asset_index_path;
  yield;;
  index ← lift (json_loads content);
  objects ← lift (py_getitem index "objects");
  asset_index_objects ← lift (py_values objects);
  objects_loop objects_directory asset_index_objects;;
  write_meta (join (output_dir E) "nelius.meta") version_data classpath
             assets_directory.

(** The script: the two assertions on the command line, then the
    [__main__] block. *)
Definition main : M unit :=
  (if String.eqb (output_dir E) ""
   then raise (AssertionError "no valid output directory specified") else mret tt);;
  (if String.eqb (mc_version E) ""
   then raise (AssertionError "no valid minecraft version specified") else mret tt);;
  version_data ← get_version_data (mc_version E);
  with_executor (download_minecraft_structure version_data).

(** ** [nelius_launch.py] *)

Fixpoint classpath_loop (game_dir : string) (paths : list json)
    (classpath : list string) : result (list string) :=
  match paths with
  | [] => Ok classpath
  | p :: rest =>
      j ← os_path_join game_dir p;
      classpath_loop game_dir rest (classpath ++ [abspath (getcwd E) j])
  end.

(** The list [classpath] before [separator.join]. *)
Definition launch_classpath (meta : json) (nelius_meta_dir : string)
  : result (list string) :=
  let game_dir := dirname (abspath (getcwd E) nelius_meta_dir) in
  raw ← py_getitem meta "classpath_relative";
  paths ← py_iter raw;
  classpath ← classpath_loop game_dir paths [];
  Ok (classpath ++ [abspath (getcwd E) (join game_dir "client.jar")]).

(** [separator.join(classpath)]. *)
Fixpoint str_join (separator : string) (l : list string) : string :=
  match l with
  | [] => ""
  | [x] => x
  | x :: rest => x +:+ separator +:+ str_join separator rest
  end.

(** [launch_minecraft] up to [subprocess.run]: the command it runs. *)
Definition launch_minecraft (nelius_meta_dir : string) : M (list json) :=
  content ← read_file nelius_meta_dir;
  meta ← lift (json_loads content);
  let game_dir := dirname (abspath (getcwd E) nelius_meta_dir) in
  classpath ← lift (launch_classpath meta nelius_meta_dir);
  let separator := if String.eqb (platform_system E) "Windows" then ";" else ":" in
  let classpath := str_join separator classpath in
  lift (
    mc ← py_getitem meta "main_class";
    v ← py_getitem meta "version";
    ad ← py_getitem meta "assets_dir";
    ai ← py_getitem meta "asset_index_id";
    Ok [JStr "java"; JStr "-Xmx2G"; JStr "-cp"; JStr classpath; mc;
        JStr "--username"; JStr "nelius"; JStr "--version"; v;
        JStr "--gameDir"; JStr game_dir; JStr "--assetsDir"; ad;
        JStr "--assetIndex"; ai; JStr "--uuid"; JStr "0";
        JStr "--accessToken"; JStr "0"]).

End Run.

(** ** What the traces and the documents are asked *)

(** The tasks given to the pool, in the order of submission. *)
Definition submitted (tr : list event) : list task :=
  flat_map (fun e => match e with ESubmit t => [t] | _ => [] end) tr.

(** The descriptors written. *)
Definition metas (tr : list event) : list (string * json) :=
  flat_map (fun e => match e with EMeta d doc => [(d, doc)] | _ => [] end) tr.

(** The requests [download_file] sent. *)
Definition downloads (tr : list event) : list (string * string) :=
  flat_map (fun e => match e with EDownload u d => [(u, d)] | _ => [] end) tr.

(** The tasks that raised. *)
Definition failed (tr : list event) : list task :=
  flat_map (fun e => match e with EDone t (Raise _) => [t] | _ => [] end) tr.

(** The events of [download_file], in a worker or in the main thread. *)
Definition worker_event (e : event) : bool :=
  match e with
  | EDownload _ _ | EDone _ _ => true
  | _ => false
  end.

(** The name a rule gives to an operating system, if it gives one. *)
Definition os_name_of (rule : json) : option json :=
  match rule with
  | JObj items =>
      match assoc "os" items with
      | Some (JObj os) => assoc "name" os
      | _ => None
      end
  | _ => None
  end.

(** The constraint in the words of the specification: the name given by
    the last rule that names an operating system, [acc] if none does. *)
Fixpoint last_named_os (rules : list json) (acc : json) : json :=
  match rules with
  | [] => acc
  | rule :: rest =>
      last_named_os rest (match os_name_of rule with Some n => n | None => acc end)
  end.

(** A library entry without [downloads.artifact]. *)
Definition lacks_artifact (raw_library : json) : Prop :=
  ∃ items, raw_library = JObj items ∧
    match assoc "downloads" items with
    | None => True
    | Some (JObj d) => assoc "artifact" d = None
    | Some _ => False
    end.

(** [d[k] = v] on the items of an object. *)
Fixpoint set_item (k : string) (v : json) (items : list (string * json))
  : list (string * json) :=
  match items with
  | [] => [(k, v)]
  | (k', x) :: rest =>
      if String.eqb k k' then (k', v) :: rest else (k', x) :: set_item k v rest
  end.

(** A detail document with [downloads.server.url]. *)
Definition has_server_url (raw_version_details : json) : Prop :=
  ∃ d sv u, py_getitem raw_version_details "downloads" = Ok d ∧
            py_getitem d "server" = Ok sv ∧ py_getitem sv "url" = Ok u.

Definition with_server_jar_url (s : json) (vd : VersionData) : VersionData :=
  mkVersionData (vd_id vd) (asset_index_url vd) (asset_index_id vd)
    (client_jar_url vd) s (libraries vd) (main_class vd).

(** ** Documents and worlds used as examples *)

Definition library_entry (name : string) (rules : list json) (p u : string) : json :=
  JObj [("name", JStr name);
        ("rules", JArr rules);
        ("downloads", JObj [("artifact", JObj [("path", JStr p); ("url", JStr u)])])].

Definition os_rule (name : string) : json :=
  JObj [("action", JStr "allow"); ("os", JObj [("name", JStr name)])].

Definition rules_linux_windows : list json :=
  [JObj [("os", JObj [("name", JStr "linux")])];
   JObj [("os", JObj [("name", JStr "windows")])]].

(** A rule on the operating system that names none, after one that does. *)
Definition rules_linux_then_arch : list json :=
  [os_rule "linux";
   JObj [("action", JStr "allow"); ("os", JObj [("arch", JStr "x86")])]].

Definition lwjgl_entry (rules : list json) : json :=
  library_entry "org.lwjgl:lwjgl:3.3.1" rules "org/lwjgl/lwjgl-3.3.1.jar"
    "https://libraries.minecraft.net/org/lwjgl/lwjgl-3.3.1.jar".

Definition lwjgl (system : string) : Library :=
  mkLibrary (JStr "org.lwjgl:lwjgl:3.3.1") (JStr system)
    (JStr "org/lwjgl/lwjgl-3.3.1.jar")
    (JStr "https://libraries.minecraft.net/org/lwjgl/lwjgl-3.3.1.jar").

(** An entry with natives only: [downloads] has classifiers, no artifact. *)
Definition natives_entry : json :=
  JObj [("name", JStr "org.lwjgl:lwjgl-platform:2.9.4");
        ("downloads", JObj [("classifiers", JObj [])])].

(** A detail document without [downloads.server]. *)
Definition details_without_server : json :=
  JObj [("id", JStr "1.20"); ("mainClass", JStr "net.minecraft.client.main.Main");
        ("assetIndex", JObj [("id", JStr "5"); ("url", JStr "https://m/5.json")]);
        ("downloads", JObj [("client", JObj [("url", JStr "https://m/client.jar")])]);
        ("libraries", JArr [])].

(** A detail document with one library that has an artifact and one that
    has none, and what [get_version_data] makes of it. *)
Definition details_items_with_natives : list (string * json) :=
  [("id", JStr "1.20"); ("mainClass", JStr "net.minecraft.client.main.Main");
   ("assetIndex", JObj [("id", JStr "5"); ("url", JStr "https://m/5.json")]);
   ("downloads", JObj [("client", JObj [("url", JStr "https://m/client.jar")]);
                       ("server", JObj [("url", JStr "https://m/server.jar")])]);
   ("libraries", JArr ([lwjgl_entry []] ++ natives_entry :: []))].

Definition version_data_with_natives : VersionData :=
  mkVersionData (JStr "1.20") (JStr "https://m/5.json") (JStr "5")
    (JStr "https://m/client.jar") (JStr "https://m/server.jar")
    [lwjgl "unspecified"] (JStr "net.minecraft.client.main.Main").

(** ** What a run is expected to do with the libraries *)

Definition artifact_path (l : Library) : string :=
  match download_path l with
  | JStr p => p
  | _ => ""
  end.

Definition has_artifact_path (l : Library) : Prop :=
  ∃ p, download_path l = JStr p.

Definition library_destination (E : Env) (l : Library) : string :=
  join (join (output_dir E) "libraries") (artifact_path l).

Definition library_task (E : Env) (l : Library) : task :=
  (download_url l, library_destination E l).

Definition library_classpath_entry (E : Env) (l : Library) : string :=
  relpath (getcwd E) (library_destination E l) (output_dir E).

(** The libraries the loop of [download_minecraft_structure] does not skip. *)
Definition kept (E : Env) (libs : list Library) : list Library :=
  List.filter (fun l => negb (skipped_on (platform_system E) l)) libs.

Definition client_task (E : Env) (vd : VersionData) : task :=
  (client_jar_url vd, join (output_dir E) "client.jar").

Definition meta_path (E : Env) : string := join (output_dir E) "nelius.meta".

Definition assets_dir_of (E : Env) : string :=
  relpath (getcwd E) (join (output_dir E) "assets") (output_dir E).

(** The events after the first descriptor written. *)
Fixpoint after_meta (tr : list event) : list event :=
  match tr with
  | [] => []
  | EMeta _ _ :: rest => rest
  | _ :: rest => after_meta rest
  end.

(** The tasks the loop over the objects of the index submits. *)
Definition object_tasks (objects_directory : string) (objects : list json)
  : result (list task) :=
  mapM (fun object_data =>
          h ← py_getitem object_data "hash"; object_task objects_directory h)
       objects.

(** A request that [download_file] cannot turn into a file: the URL is not
    a string, no response comes, or the status is 4xx or 5xx. *)
Definition request_fails (E : Env) (url : json) : Prop :=
  match url with
  | JStr u =>
      match net E u with
      | ConnectionFailed => True
      | Complete status _ | Truncated status _ => 400 <= status < 600
      end
  | _ => True
  end.

(** The destinations of everything a run fetches are there: the client,
    the libraries kept, the asset index and the objects it lists. *)
Definition populated (E : Env) (f : gmap path node) (vd : VersionData) : bool :=
  let assets_directory := join (output_dir E) "assets" in
  let asset_index_path :=
    join (join assets_directory "indexes")
         (py_str (repr E) (asset_index_id vd) +:+ ".json") in
  exists_in E f (join (output_dir E) "client.jar")
  && forallb (fun l => exists_in E f (library_destination E l)) (kept E (libraries vd))
  && exists_in E f asset_index_path
  && match node_at E f asset_index_path with
     | Some (File (Doc index)) =>
         match (objects ← py_getitem index "objects"; py_values objects) with
         | Ok asset_index_objects =>
             forallb (fun object_data =>
                        match (h ← py_getitem object_data "hash";
                               object_task (join assets_directory "objects") h) with
                        | Ok t => exists_in E f (snd t)
                        | Raise _ => true
                        end)
                     asset_index_objects
         | Raise _ => true
         end
     | _ => true
     end.

(** *** The scenario of the specification: version 1.20, a library for
    linux, one for every system, one for windows, and an asset index
    [abc] of three objects. *)

Definition manifest_doc : json :=
  JObj [("latest", JObj [("release", JStr "1.20"); ("snapshot", JStr "23w31a")]);
        ("versions",
         JArr [JObj [("id", JStr "23w31a"); ("type", JStr "snapshot");
                     ("url", JStr "https://m/23w31a.json")];
               JObj [("id", JStr "1.20"); ("type", JStr "release");
                     ("url", JStr "https://m/1.20.json")]])].

Definition detail_doc : json :=
  JObj [("id", JStr "1.20");
        ("mainClass", JStr "net.minecraft.client.main.Main");
        ("assetIndex", JObj [("id", JStr "abc"); ("url", JStr "https://m/abc.json")]);
        ("downloads", JObj [("client", JObj [("url", JStr "https://m/client.jar")]);
                            ("server", JObj [("url", JStr "https://m/server.jar")])]);
        ("libraries",
         JArr [library_entry "a:glfw:1" [os_rule "linux"] "a/glfw.jar" "https://m/glfw.jar";
               library_entry "b:gson:2" [] "b/gson.jar" "https://m/gson.jar";
               library_entry "c:jna:3" [os_rule "windows"] "c/jna.jar" "https://m/jna.jar"])].

Definition index_doc : json :=
  JObj [("objects",
         JObj [("icons/icon.png", JObj [("hash", JStr "abc123"); ("size", JNum 3)]);
               ("lang/en.json", JObj [("hash", JStr "de45"); ("size", JNum 5)]);
               ("sounds/a.ogg", JObj [("hash", JStr "0f77"); ("size", JNum 7)])])].

(** The network of the scenario; [broken] answers 404 and [odd] answers
    300 without a redirection. *)
Definition scenario_net (broken odd : string) (u : string) : response :=
  if String.eqb u broken then Complete 404 (Blob "not found")
  else if String.eqb u odd then Complete 300 (Blob "choices")
  else if String.eqb u MANIFEST_URL then Complete 200 (Doc manifest_doc)
  else if String.eqb u "https://m/1.20.json" then Complete 200 (Doc detail_doc)
  else if String.eqb u "https://m/abc.json" then Complete 200 (Doc index_doc)
  else Complete 200 (Blob "bytes").

Definition scenario (host broken odd version : string) : Env :=
  mkEnv host "/home/u" (scenario_net broken odd) (fun _ => "None") "out" version.

(** A file system with the working directory and nothing else. *)
Definition home : gmap path node :=
  <[ ["home"; "u"] := Dir ]> (<[ ["home"] := Dir ]> ∅).

(** A world where no worker runs before the pool is shut down, and one
    where every task runs as soon as it is submitted. *)
Definition lazy_start : World := mkWorld home [] [] [].

Definition eager_start : World := mkWorld home [] [] (repeat [0%nat] 16).

Definition scenario_manifest : Manifest :=
  mkManifest (mkManifestLatest (JStr "1.20") (JStr "23w31a"))
    [mkManifestVersion (JStr "23w31a") (JStr "snapshot") (JStr "https://m/23w31a.json");
     mkManifestVersion (JStr "1.20") (JStr "release") (JStr "https://m/1.20.json")].

Definition not_found : exn := ValueError "Invalid version provided: not found".

(** The tasks that returned or raised, in that order. *)
Definition finished (tr : list event) : list task :=
  flat_map (fun e => match e with EDone t _ => [t] | _ => [] end) tr.

(** The scenario on a Linux host where the request for the library of
    every system is answered 404. *)
Definition gson_broken : Env := scenario "Linux" "https://m/gson.jar" "" "1.20".


(** A network where the detail document of 1.20 has no server download. *)
Definition serverless_net (u : string) : response :=
  if String.eqb u MANIFEST_URL then Complete 200 (Doc manifest_doc)
  else if String.eqb u "https://m/1.20.json" then Complete 200 (Doc details_without_server)
  else Complete 404 (Blob "not found").

Definition serverless : Env :=
  mkEnv "Linux" "/home/u" serverless_net (fun _ => "None") "out" "1.20".





(** The directory of the descriptor, where the launcher looks for the
    files of the classpath. *)
Definition game_dir_of (E : Env) : string :=
  dirname (abspath (getcwd E) (meta_path E)).

(** The classpath the launcher builds from the entries [cp] of a
    descriptor. *)
Definition launched_classpath (E : Env) (cp : list string) : list string :=
  map (fun p => abspath (getcwd E) (join (game_dir_of E) p)) cp
  ++ [abspath (getcwd E) (join (game_dir_of E) "client.jar")].

Definition separator_of (E : Env) : string :=
  if String.eqb (platform_system E) "Windows" then ";" else ":".

(** The scenario on a Linux host with a network that answers everything. *)
Definition linux_run : Env := scenario "Linux" "" "" "1.20".

Definition scenario_version_data : VersionData :=
  mkVersionData (JStr "1.20") (JStr "https://m/abc.json") (JStr "abc")
    (JStr "https://m/client.jar") (JStr "https://m/server.jar")
    [mkLibrary (JStr "a:glfw:1") (JStr "linux") (JStr "a/glfw.jar") (JStr "https://m/glfw.jar");
     mkLibrary (JStr "b:gson:2") (JStr "unspecified") (JStr "b/gson.jar") (JStr "https://m/gson.jar");
     mkLibrary (JStr "c:jna:3") (JStr "windows") (JStr "c/jna.jar") (JStr "https://m/jna.jar")]
    (JStr "net.minecraft.client.main.Main").

(** A library with a constraint the loop has no test for. *)
Definition freebsd_library : Library :=
  mkLibrary (JStr "d:kqueue:4") (JStr "freebsd") (JStr "d/kqueue.jar")
    (JStr "https://m/kqueue.jar").

Definition freebsd_version_data : VersionData :=
  mkVersionData (JStr "1.20") (JStr "https://m/abc.json") (JStr "abc")
    (JStr "https://m/client.jar") (JStr "https://m/server.jar")
    [freebsd_library] (JStr "net.minecraft.client.main.Main").

Definition mac_run : Env := scenario "Darwin" "" "" "1.20".

(** Every task that waits has its destination on disk. *)
Definition ready (E : Env) (w : World) : Prop :=
  Forall (fun t : task => exists_in E (fs w) (snd t) = true) (pending w).

(** From a world that holds [f0] and is [ready]: the world still holds
    [f0], is still [ready], and no download request has been sent. *)
Definition calm (E : Env) (f0 : gmap path node) (w w' : World) : Prop :=
  f0 ⊆ fs w → ready E w →
  f0 ⊆ fs w' ∧ ready E w' ∧ downloads (trace w') = downloads (trace w).

(** The same without the promise that the world still holds [f0]: the
    descriptor may have replaced a file. *)
Definition calm_end (E : Env) (f0 : gmap path node) (w w' : World) : Prop :=
  f0 ⊆ fs w → ready E w →
  ready E w' ∧ downloads (trace w') = downloads (trace w).

(** The world in which the scenario is run again: the files of a first
    run, a fresh trace, and workers that run every task at once. *)
Definition populated_start : World :=
  mkWorld (fs (snd (main linux_run lazy_start))) [] [] (repeat [0%nat] 16).

(** ** Relations between the world before and the world after *)

(** A relation between the world before and the world after that every
    run of [m] satisfies. *)
Definition rel (R : World → World → Prop) {A} (m : M A) : Prop :=
  ∀ w r w', m w = (r, w') → R w w'.

(** The same for the runs that raise. *)
Definition rel_raised (R : World → World → Prop) {A} (m : M A) : Prop :=
  ∀ w e w', m w = (Raise e, w') → R w w'.

(** A call of [download_file] never changes or removes a node that is
    there, and adds to the trace only its own events. *)
Definition quiet (evs : list event) : Prop :=
  Forall (fun e => worker_event e = true) evs.

Definition pool_rel (w w' : World) : Prop :=
  fs w ⊆ fs w' ∧ ∃ evs, trace w' = trace w ++ evs ∧ quiet evs.

(** What the main thread has submitted, no descriptor being written. *)
Definition main_rel (ts : list task) (w w' : World) : Prop :=
  submitted (trace w') = submitted (trace w) ++ ts ∧
  metas (trace w') = metas (trace w).

(** The main thread before it writes the descriptor. *)
Definition progress (w w' : World) : Prop := ∃ ts, main_rel ts w w'.

(** The two requests of [get_version_data] touch nothing but the trace,
    where they leave [EFetch] events. *)
Definition fetch_rel (w w' : World) : Prop :=
  fs w' = fs w ∧ pending w' = pending w ∧ sched w' = sched w ∧
  ∃ evs, trace w' = trace w ++ evs ∧
         Forall (fun e => ∃ u, e = EFetch u) evs.


(** A network where the body of one response breaks off after two bytes. *)
Definition flaky_net (u : string) : response :=
  if String.eqb u "https://m/client.jar" then Truncated 200 "PK"
  else Complete 200 (Blob "bytes").

Definition flaky : Env :=
  mkEnv "Linux" "/home/u" flaky_net (fun _ => "None") "out" "1.20".

(** ** More of the two scripts *)

(** [nelius_launch.py] as a script: the assertion on the command line,
    then [launch_minecraft]. *)
Definition nelius_launch_main (nelius_meta_dir : string) (E : Env) : M (list json) :=
  if String.eqb nelius_meta_dir "" then raise (AssertionError "no root dir specified")
  else launch_minecraft E nelius_meta_dir.

(** A rule the loop of [get_version_data] gets through: it can be asked
    whether it has an [os] key, and if it has one, the value is a dict. *)
Definition rule_ok (rule : json) : bool :=
  match py_contains "os" rule with
  | Ok false => true
  | Ok true =>
      match py_getitem rule "os" with
      | Ok (JObj _) => true
      | _ => false
      end
  | Raise _ => false
  end.

Definition with_library_name (n : json) (l : Library) : Library :=
  mkLibrary n (operating_system l) (download_path l) (download_url l).

(** [vd] with another id and other names for its libraries. *)
Definition renamed (i : json) (names : Library → json) (vd : VersionData) : VersionData :=
  mkVersionData i (asset_index_url vd) (asset_index_id vd) (client_jar_url vd)
    (server_jar_url vd) (map (fun l => with_library_name (names l) l) (libraries vd))
    (main_class vd).

(** ** Invariants of a run *)

(** Every task submitted has run or waits, and the destination of every
    task that returned is on disk. *)
Definition tidy (E : Env) (w : World) : Prop :=
  submitted (trace w) ≡ₚ finished (trace w) ++ pending w ∧
  ∀ t, In (EDone t (Ok tt)) (trace w) → exists_in E (fs w) (snd t) = true.

(** From [w] to [w']: no node is changed or removed, but possibly the one
    at [km]; what exists still exists; a tidy world stays tidy. *)
Definition orderly (E : Env) (km : path) (w w' : World) : Prop :=
  (∀ k n, k ≠ km → fs w !! k = Some n → fs w' !! k = Some n) ∧
  (∀ p, exists_in E (fs w) p = true → exists_in E (fs w') p = true) ∧
  (tidy E w → tidy E w').

(** Events that are neither a submission nor the end of a task. *)
Definition silent (evs : list event) : Prop :=
  Forall (fun e => match e with ESubmit _ | EDone _ _ => False | _ => True end) evs.

(** The path of the asset index of [vd]. *)
Definition asset_index_path_of (E : Env) (vd : VersionData) : string :=
  join (join (join (output_dir E) "assets") "indexes")
       (py_str (repr E) (asset_index_id vd) +:+ ".json").

Definition objects_directory_of (E : Env) : string :=
  join (join (output_dir E) "assets") "objects".

(** The world in which a second run starts: the disk the first run left,
    a fresh trace, an idle pool and any schedule. *)
Definition second_start (w' : World) (schedule : list (list nat)) : World :=
  mkWorld (fs w') [] [] schedule.

(** The command [launch_minecraft] runs for the descriptor of [vd] with
    the classpath entries [cp]. *)
Definition launch_command (E : Env) (vd : VersionData) (cp : list string) : list json :=
  [JStr "java"; JStr "-Xmx2G"; JStr "-cp";
   JStr (str_join (separator_of E) (launched_classpath E cp));
   main_class vd;
   JStr "--username"; JStr "nelius";
   JStr "--version"; JStr (mc_version E);
   JStr "--gameDir"; JStr (game_dir_of E);
   JStr "--assetsDir"; JStr (assets_dir_of E);
   JStr "--assetIndex"; asset_index_id vd;
   JStr "--uuid"; JStr "0"; JStr "--accessToken"; JStr "0"].

Definition is_string (v : json) : Prop := ∃ s, v = JStr s.

(** The task of the object [o] of the index. *)
Definition task_of_object (dir : string) (o : json) : result task :=
  h ← py_getitem o "hash"; object_task dir h.

(** * Properties *)

(** ** The path functions on examples *)

Example join_abs : join "out/libraries" "/etc/x" = "/etc/x".
Proof. reflexivity. Qed.
Example norm1 : normpath "a//b/./c/../d/" = "a/b/d".
Proof. reflexivity. Qed.
Example norm2 : normpath "//a/../../b" = "//b".
Proof. reflexivity. Qed.
Example norm3 : normpath "../a/../../b" = "../../b".
Proof. reflexivity. Qed.
Example rel1 : relpath "/home/u" "out/libraries/a/b.jar" "out" = "libraries/a/b.jar".
Proof. reflexivity. Qed.
Example rel2 : relpath "/home/u" "/etc/x" "out" = "../../../etc/x".
Proof. reflexivity. Qed.
Example dir1 : dirname "out/a/b.jar" = "out/a".
Proof. reflexivity. Qed.
Example dir2 : dirname "/x" = "/".
Proof. reflexivity. Qed.
Example dir3 : dirname "x" = "".
Proof. reflexivity. Qed.
Example dir4 : dirname "a//b" = "a".
Proof. reflexivity. Qed.
Example comp1 : components "/home/u" "out/../x//y" = ["home"; "u"; "x"; "y"].
Proof. reflexivity. Qed.


(** ** Reading the libraries *)

Lemma scan_rules_inv (rules : list json) : ∀ s v,
  scan_rules rules s = Ok v →
  (Forall (fun r => py_contains "os" r = Ok false) rules ∧ v = s) ∨
  (∃ pre r post os,
      rules = pre ++ r :: post ∧
      py_contains "os" r = Ok true ∧
      Forall (fun r => py_contains "os" r = Ok false) post ∧
      py_getitem r "os" = Ok os ∧
      py_get os "name" (JStr "unspecified") = Ok v).
Proof.
  induction rules as [|rule rest IH]; intros s v H; simpl in H.
  - left. split; [constructor | congruence].
  - destruct (py_contains "os" rule) as [[|]|e] eqn:Hc; simpl in H; try discriminate.
    + destruct (py_getitem rule "os") as [os|e] eqn:Hos; simpl in H; try discriminate.
      destruct (py_get os "name" (JStr "unspecified")) as [name|e] eqn:Hn;
        simpl in H; try discriminate.
      destruct (IH _ _ H) as [[Hall ->] | (pre & r & post & os' & -> & ? & ? & ? & ?)].
      * right. exists [], rule, rest, os. auto.
      * right. exists (rule :: pre), r, post, os'. auto.
    + destruct (IH _ _ H) as [[Hall ->] | (pre & r & post & os' & -> & ? & ? & ? & ?)].
      * left. split; [constructor; assumption | reflexivity].
      * right. exists (rule :: pre), r, post, os'. auto.
Qed.

(** C2 (as amended). The constraint of a library is decided by the last
    rule that has an [os] key, whether or not that rule names an operating
    system: it is the [name] of that rule's [os] object, [unspecified] when
    the object has no name, and [unspecified] when no rule has an [os] key. *)
Theorem platform_constraint_of_last_os_rule (raw_library : json) (l : Library) :
  library_of raw_library = Ok (Some l) →
  ∃ rules rule_list,
    py_get raw_library "rules" (JArr []) = Ok rules ∧
    py_iter rules = Ok rule_list ∧
    ((Forall (fun r => py_contains "os" r = Ok false) rule_list ∧
      operating_system l = JStr "unspecified") ∨
     (∃ pre r post os,
         rule_list = pre ++ r :: post ∧
         py_contains "os" r = Ok true ∧
         Forall (fun r => py_contains "os" r = Ok false) post ∧
         py_getitem r "os" = Ok os ∧
         py_get os "name" (JStr "unspecified") = Ok (operating_system l))).
Proof.
  unfold library_of. intros H.
  destruct (py_get raw_library "rules" (JArr [])) as [rules|] eqn:Hr;
    simpl in H; try discriminate.
  destruct (py_iter rules) as [rule_list|] eqn:Hi; simpl in H; try discriminate.
  destruct (scan_rules rule_list (JStr "unspecified")) as [system|] eqn:Hs;
    simpl in H; try discriminate.
  destruct (py_get raw_library "downloads" (JObj [])) as [d|]; simpl in H;
    try discriminate.
  destruct (py_get d "artifact" JNull) as [a|]; simpl in H; try discriminate.
  destruct (truthy a); try discriminate.
  destruct (py_getitem raw_library "name"); simpl in H; try discriminate.
  destruct (py_getitem a "path"); simpl in H; try discriminate.
  destruct (py_getitem a "url"); simpl in H; try discriminate.
  injection H as <-. simpl.
  exists rules, rule_list. split; [reflexivity|]. split; [assumption|].
  destruct (scan_rules_inv _ _ _ Hs) as [[? ->] | ?]; auto.
Qed.

Lemma platform_constraint_linux_windows :
  operating_system (lwjgl "windows") = JStr "windows" ∧
  ∃ rules rule_list,
    py_get (lwjgl_entry rules_linux_windows) "rules" (JArr []) = Ok rules ∧
    py_iter rules = Ok rule_list ∧
    ((Forall (fun r => py_contains "os" r = Ok false) rule_list ∧
      operating_system (lwjgl "windows") = JStr "unspecified") ∨
     (∃ pre r post os,
         rule_list = pre ++ r :: post ∧
         py_contains "os" r = Ok true ∧
         Forall (fun r => py_contains "os" r = Ok false) post ∧
         py_getitem r "os" = Ok os ∧
         py_get os "name" (JStr "unspecified") = Ok (operating_system (lwjgl "windows")))).
Proof.
  split; [reflexivity|].
  apply (platform_constraint_of_last_os_rule (lwjgl_entry rules_linux_windows)).
  reflexivity.
Defined.

(** C2 as stated fails: after a rule that names linux, a rule with an [os]
    object that has no name sets the constraint back to [unspecified]; the
    last rule that names an operating system says linux. *)
Lemma platform_constraint_reset_by_unnamed_os :
  library_of (lwjgl_entry rules_linux_then_arch) = Ok (Some (lwjgl "unspecified")) ∧
  last_named_os rules_linux_then_arch (JStr "unspecified") = JStr "linux".
Proof. split; reflexivity. Qed.

(** ** Entries without an artifact *)

Lemma assoc_set_item_eq k v items : assoc k (set_item k v items) = Some v.
Proof.
  induction items as [|[k' x] rest IH]; simpl.
  - by rewrite String.eqb_refl.
  - destruct (String.eqb k k') eqn:Hk; simpl; rewrite Hk; auto.
Qed.

Lemma assoc_set_item_ne k k' v items :
  k ≠ k' → assoc k' (set_item k v items) = assoc k' items.
Proof.
  intros Hne. induction items as [|[k0 x] rest IH]; simpl.
  - destruct (String.eqb k' k) eqn:Hk; [|reflexivity].
    apply String.eqb_eq in Hk. congruence.
  - destruct (String.eqb k k0) eqn:Hk; simpl.
    + apply String.eqb_eq in Hk. subst k0.
      destruct (String.eqb k' k) eqn:Hk'; [|reflexivity].
      apply String.eqb_eq in Hk'. congruence.
    + by rewrite IH.
Qed.

Lemma library_of_lacks_artifact raw :
  lacks_artifact raw → library_of raw = Ok None ∨ ∃ e, library_of raw = Raise e.
Proof.
  intros (items & -> & Hd). unfold library_of.
  destruct (py_get (JObj items) "rules" (JArr [])) as [rules|e]; simpl; eauto.
  destruct (py_iter rules) as [rule_list|e]; simpl; eauto.
  destruct (scan_rules rule_list (JStr "unspecified")) as [system|e]; simpl; eauto.
  destruct (assoc "downloads" items) as [d|] eqn:Ha.
  - destruct d; try contradiction. simpl. rewrite Hd. simpl. auto.
  - simpl. auto.
Qed.

Lemma libraries_of_remove raw pre post libs :
  lacks_artifact raw →
  libraries_of (pre ++ raw :: post) = Ok libs →
  libraries_of (pre ++ post) = Ok libs.
Proof.
  intros Hl. revert libs. induction pre as [|x pre IH]; intros libs; simpl.
  - destruct (library_of_lacks_artifact raw Hl) as [-> | [e ->]]; simpl.
    + destruct (libraries_of post); simpl; congruence.
    + discriminate.
  - destruct (library_of x) as [o|e]; simpl; [|discriminate].
    destruct (libraries_of (pre ++ raw :: post)) as [ls|e] eqn:Hls; simpl;
      [|discriminate].
    rewrite (IH ls eq_refl). simpl. auto.
Qed.

(** C8. A library entry without [downloads.artifact] gives no [Library]:
    the detail document without the entry is read into the same
    [VersionData], from which alone the classpath and the tasks are
    computed. *)
Theorem entry_without_artifact_contributes_nothing
    (raw : json) (pre post : list json) (items : list (string * json))
    (vd : VersionData) :
  lacks_artifact raw →
  assoc "libraries" items = Some (JArr (pre ++ raw :: post)) →
  version_data_of (JObj items) = Ok vd →
  (∃ libs, libraries_of (pre ++ raw :: post) = Ok libs ∧
           libraries_of (pre ++ post) = Ok libs ∧ libraries vd = libs) ∧
  version_data_of (JObj (set_item "libraries" (JArr (pre ++ post)) items)) = Ok vd.
Proof.
  intros Hl Ha. unfold version_data_of, py_get, py_getitem.
  rewrite Ha, assoc_set_item_eq. simpl.
  rewrite !assoc_set_item_ne by discriminate.
  destruct (libraries_of (pre ++ raw :: post)) as [libs|e] eqn:Hlibs; simpl;
    [|discriminate].
  rewrite (libraries_of_remove _ _ _ _ Hl Hlibs). simpl.
  intros H. split; [|exact H].
  exists libs. split; [reflexivity|]. split; [reflexivity|].
  repeat match type of H with
  | context [match ?x with _ => _ end] => destruct x; simpl in H; try discriminate
  end.
  injection H as <-. reflexivity.
Qed.

Lemma natives_entry_contributes_nothing :
  (∃ libs, libraries_of ([lwjgl_entry []] ++ natives_entry :: []) = Ok libs ∧
           libraries_of ([lwjgl_entry []] ++ []) = Ok libs ∧
           libraries version_data_with_natives = libs) ∧
  version_data_of
    (JObj (set_item "libraries" (JArr ([lwjgl_entry []] ++ []))
             details_items_with_natives))
  = Ok version_data_with_natives.
Proof.
  apply (entry_without_artifact_contributes_nothing natives_entry [lwjgl_entry []] []).
  - eexists. split; [reflexivity|]. reflexivity.
  - reflexivity.
  - reflexivity.
Defined.

(** ** The server artifact *)

Lemma version_data_of_server d vd :
  version_data_of d = Ok vd →
  ∃ dl sv, py_getitem d "downloads" = Ok dl ∧ py_getitem dl "server" = Ok sv ∧
           py_getitem sv "url" = Ok (server_jar_url vd).
Proof.
  unfold version_data_of, mbind, result_bind. intros H.
  repeat match type of H with
  | (match ?e with _ => _ end) = _ => destruct e eqn:?; [|discriminate]
  end.
  injection H as <-. simpl. eauto.
Qed.

(** ** The monad of the scripts *)

Lemma bind_inv {A B} (m : M A) (f : A → M B) w r w' :
  (m ≫= f) w = (r, w') →
  (∃ a w1, m w = (Ok a, w1) ∧ f a w1 = (r, w')) ∨
  (∃ e, m w = (Raise e, w') ∧ r = Raise e).
Proof.
  unfold mbind, M_bind. destruct (m w) as [[a|e] w1]; intros H.
  - left. eauto.
  - right. injection H as <- <-. eauto.
Qed.

Lemma bind_ok {A B} (m : M A) (f : A → M B) w b w' :
  (m ≫= f) w = (Ok b, w') → ∃ a w1, m w = (Ok a, w1) ∧ f a w1 = (Ok b, w').
Proof.
  intros H. destruct (bind_inv _ _ _ _ _ H) as [?|(e & _ & ?)]; [assumption|discriminate].
Qed.

Lemma lift_inv {A} (x : result A) w r w' : lift x w = (r, w') → x = r ∧ w' = w.
Proof. unfold lift. intros H. injection H as <- <-. auto. Qed.

Section Rel.
Context (R : World → World → Prop) `{!Reflexive R, !Transitive R}.

Lemma rel_ret {A} (a : A) : rel R (mret a).
Proof. intros w r w' H. injection H as <- <-. reflexivity. Qed.

Lemma rel_lift {A} (x : result A) : rel R (lift x).
Proof. intros w r w' H. injection H as <- <-. reflexivity. Qed.

Lemma rel_bind {A B} (m : M A) (f : A → M B) :
  rel R m → (∀ a, rel R (f a)) → rel R (m ≫= f).
Proof.
  intros Hm Hf w r w' H.
  destruct (bind_inv _ _ _ _ _ H) as [(a & w1 & H1 & H2)|(e & H1 & _)].
  - etrans; [exact (Hm _ _ _ H1) | exact (Hf _ _ _ _ H2)].
  - exact (Hm _ _ _ H1).
Qed.

Lemma rel_raised_bind {A B} (m : M A) (f : A → M B) :
  rel R m → (∀ a, rel_raised R (f a)) → rel_raised R (m ≫= f).
Proof.
  intros Hm Hf w e w' H.
  destruct (bind_inv _ _ _ _ _ H) as [(a & w1 & H1 & H2)|(e' & H1 & _)].
  - etrans; [exact (Hm _ _ _ H1) | exact (Hf _ _ _ _ H2)].
  - exact (Hm _ _ _ H1).
Qed.
End Rel.

(** ** What the workers may do to the world

    A call of [download_file] never changes or removes a node that is
    there, and adds to the trace only its own events. *)

#[local] Instance pool_rel_refl : Reflexive pool_rel.
Proof.
  intros w. split; [reflexivity|]. exists []. split; [by rewrite app_nil_r | constructor].
Qed.

#[local] Instance pool_rel_trans : Transitive pool_rel.
Proof.
  intros w1 w2 w3 [Hf1 (e1 & Ht1 & Hq1)] [Hf2 (e2 & Ht2 & Hq2)]. split.
  - etrans; eassumption.
  - exists (e1 ++ e2). split.
    + by rewrite Ht2, Ht1, app_assoc.
    + apply Forall_app; auto.
Qed.

Lemma quiet_submitted tr evs : quiet evs → submitted (tr ++ evs) = submitted tr.
Proof.
  intros Hq. unfold submitted. rewrite flat_map_app.
  induction Hq as [|e evs He _ IH]; simpl.
  - apply app_nil_r.
  - destruct e; try discriminate; simpl; exact IH.
Qed.

Lemma quiet_metas tr evs : quiet evs → metas (tr ++ evs) = metas tr.
Proof.
  intros Hq. unfold metas. rewrite flat_map_app.
  induction Hq as [|e evs He _ IH]; simpl.
  - apply app_nil_r.
  - destruct e; try discriminate; simpl; exact IH.
Qed.

Section RunFacts.

Variable E : Env.

Lemma mkdirs_subseteq rest : ∀ done f r f',
  mkdirs done rest f = (r, f') → f ⊆ f'.
Proof.
  induction rest as [|c rest IH]; intros done f r f' H; simpl in H.
  - injection H as _ <-. reflexivity.
  - destruct (f !! (done ++ [c])) as [[|]|] eqn:Hl.
    + injection H as _ <-. reflexivity.
    + eauto.
    + etrans; [|eapply IH; eassumption]. by apply insert_subseteq.
Qed.

(** [makedirs] puts directories only. *)
Lemma mkdirs_absent rest : ∀ done f r f' (k : path),
  mkdirs done rest f = (r, f') → f !! k = None →
  f' !! k = None ∨ f' !! k = Some Dir.
Proof.
  induction rest as [|c rest IH]; intros done f r f' k H Hk; simpl in H.
  - injection H as _ <-. auto.
  - destruct (f !! (done ++ [c])) as [[|]|] eqn:Hl.
    + injection H as _ <-. auto.
    + eauto.
    + destruct (decide (k = done ++ [c])) as [->|Hne].
      * right. eapply lookup_weaken; [|eapply mkdirs_subseteq; eassumption].
        apply lookup_insert_eq.
      * eapply IH; [eassumption|]. by rewrite lookup_insert_ne.
Qed.

Lemma makedirs_pool p : rel pool_rel (makedirs E p).
Proof.
  intros w r w' H. unfold makedirs in H.
  destruct (String.eqb p "").
  - injection H as _ <-. reflexivity.
  - destruct (mkdirs [] (key E p) (fs w)) as [r1 f1] eqn:Hm.
    injection H as _ <-. split; simpl.
    + eapply mkdirs_subseteq; eassumption.
    + exists []. split; [by rewrite app_nil_r | constructor].
Qed.

Lemma path_exists_inv p w r w' :
  path_exists E p w = (r, w') → w' = w ∧ r = Ok (exists_in E (fs w) p).
Proof. unfold path_exists. intros H. injection H as <- <-. auto. Qed.

Lemma session_get_pool url dest : rel pool_rel (session_get E url dest).
Proof.
  intros w r w' H. unfold session_get in H. destruct url;
    try (injection H as _ <-; reflexivity).
  unfold mbind, M_bind, log in H. simpl in H.
  assert (Hw : pool_rel w (mkWorld (fs w) (trace w ++ [EDownload s dest]) (pending w) (sched w))).
  { split; [reflexivity|]. exists [EDownload s dest]. split; [reflexivity|].
    repeat constructor. }
  destruct (net E s); injection H as _ <-; exact Hw.
Qed.

Lemma session_get_ok url dest w r w' :
  session_get E url dest w = (Ok r, w') →
  fs w' = fs w ∧ ∃ u, url = JStr u ∧ net E u = r ∧ r ≠ ConnectionFailed.
Proof.
  unfold session_get. destruct url; try discriminate.
  unfold mbind, M_bind, log, raise, mret, M_ret. simpl.
  destruct (net E s) eqn:Hn; intros H; try discriminate; injection H as <- <-;
    simpl; split; eauto.
Qed.

(** Writing where nothing was, or where [makedirs] has put a directory. *)
Lemma write_file_fresh p content w r w' :
  write_file E p content w = (r, w') →
  (fs w !! key E p = None ∨ fs w !! key E p = Some Dir) →
  pool_rel w w'.
Proof.
  unfold write_file. intros H Hk.
  destruct (String.eqb p ""); [injection H as _ <-; reflexivity|].
  destruct (key E p) as [|c k] eqn:Hkey; [injection H as _ <-; reflexivity|].
  destruct Hk as [Hk|Hk]; rewrite Hk in H.
  - destruct (parent_is_dir (fs w) (c :: k)); injection H as _ <-; [|reflexivity].
    split; simpl.
    + by apply insert_subseteq.
    + exists []. split; [by rewrite app_nil_r | constructor].
  - injection H as _ <-. reflexivity.
Qed.

Lemma node_at_absent f p :
  node_at E f p = None → f !! key E p = None.
Proof. unfold node_at. destruct (key E p); [discriminate | auto]. Qed.

Lemma download_file_pool url dest : rel pool_rel (download_file E url dest).
Proof.
  intros w r w' H. unfold download_file in H.
  apply bind_inv in H as [(present & w1 & H1 & H)|(e & H1 & _)];
    apply path_exists_inv in H1 as [-> H1]; [|reflexivity].
  injection H1 as ->. unfold exists_in in H.
  destruct (String.eqb dest "") eqn:Hd.
  { apply String.eqb_eq in Hd as ->.
    apply bind_inv in H as [(? & w1 & H1 & H)|(e & H1 & _)].
    - vm_compute in H1. discriminate.
    - vm_compute in H1. injection H1 as _ <-. reflexivity. }
  destruct (bool_decide (is_Some (node_at E (fs w) dest))) eqn:Hex.
  { injection H as _ <-. reflexivity. }
  apply bool_decide_eq_false in Hex.
  assert (Hnone : fs w !! key E dest = None).
  { apply node_at_absent. destruct (node_at E (fs w) dest); [|reflexivity].
    exfalso. apply Hex. eauto. }
  apply bind_inv in H as [(? & w1 & H1 & H)|(e & H1 & _)];
    [|exact (makedirs_pool _ _ _ _ H1)].
  assert (Hk1 : fs w1 !! key E dest = None ∨ fs w1 !! key E dest = Some Dir).
  { unfold makedirs in H1. destruct (String.eqb (dirname dest) ""); [discriminate|].
    destruct (mkdirs [] (key E (dirname dest)) (fs w)) as [r1 f1] eqn:Hm.
    injection H1 as _ <-. simpl. eapply mkdirs_absent; eassumption. }
  etrans; [exact (makedirs_pool _ _ _ _ H1)|].
  apply bind_inv in H as [(resp & w2 & H2 & H)|(e & H2 & _)];
    [|exact (session_get_pool _ _ _ _ _ H2)].
  etrans; [exact (session_get_pool _ _ _ _ _ H2)|].
  apply session_get_ok in H2 as [Hfs _]. rewrite <- Hfs in Hk1.
  destruct resp.
  - injection H as _ <-. reflexivity.
  - apply bind_inv in H as [(? & w3 & H3 & H)|(e & H3 & _)];
      apply lift_inv in H3 as [_ ->]; [|reflexivity].
    eapply write_file_fresh; eassumption.
  - apply bind_inv in H as [(? & w3 & H3 & H)|(e & H3 & _)];
      apply lift_inv in H3 as [_ ->]; [|reflexivity].
    apply bind_inv in H as [(? & w4 & H4 & H)|(e & H4 & _)].
    + injection H as _ <-. eapply write_file_fresh; eassumption.
    + eapply write_file_fresh; eassumption.
Qed.

Lemma run_task_pool t w : pool_rel w (run_task E t w).
Proof.
  unfold run_task. destruct (download_file E t.1 t.2 w) as [r w1] eqn:H.
  destruct (download_file_pool _ _ _ _ _ H) as [Hf (evs & Ht & Hq)].
  split; simpl; [assumption|].
  exists (evs ++ [EDone t r]). split.
  - by rewrite Ht, app_assoc.
  - apply Forall_app. split; [assumption | repeat constructor].
Qed.

Lemma set_pending_pool q w : pool_rel w (set_pending q w).
Proof.
  split; simpl; [reflexivity|]. exists []. split; [by rewrite app_nil_r | constructor].
Qed.

Lemma pool_step_pool w i : pool_rel w (pool_step E w i).
Proof.
  unfold pool_step. destruct (pending w !! _); [|reflexivity].
  etrans; [apply set_pending_pool | apply run_task_pool].
Qed.

Lemma foldl_pool picks : ∀ w, pool_rel w (foldl (pool_step E) w picks).
Proof.
  induction picks as [|i picks IH]; intros w; simpl; [reflexivity|].
  etrans; [apply pool_step_pool | apply IH].
Qed.

Lemma yield_pool : rel pool_rel (yield E).
Proof.
  intros w r w' H. unfold yield in H. destruct (sched w) as [|picks rest].
  - injection H as _ <-. reflexivity.
  - injection H as _ <-. etrans; [|apply foldl_pool].
    split; simpl; [reflexivity|]. exists []. split; [by rewrite app_nil_r | constructor].
Qed.

Lemma yield_ok w : ∃ w', yield E w = (Ok tt, w').
Proof. unfold yield. destruct (sched w); eauto. Qed.

Lemma drain_pool q : ∀ w, pool_rel w (drain E q w).
Proof.
  induction q as [|t q IH]; intros w; simpl; [reflexivity|].
  etrans; [|apply IH]. etrans; [apply set_pending_pool | apply run_task_pool].
Qed.

(** Leaving the [with] block keeps the result of the block and lets the
    workers finish. *)
Lemma with_executor_inv {A} (block : M A) w r w' :
  with_executor E block w = (r, w') →
  ∃ w1, block w = (r, w1) ∧ pool_rel w1 w'.
Proof.
  unfold with_executor. destruct (block w) as [r1 w1].
  destruct (yield E w1) as [r2 w2] eqn:Hy. intros H. injection H as <- <-.
  exists w1. split; [reflexivity|].
  etrans; [exact (yield_pool _ _ _ Hy) | apply drain_pool].
Qed.

Lemma submit_inv t w r w' :
  submit E t w = (r, w') →
  r = Ok tt ∧ fs w ⊆ fs w' ∧
  ∃ evs, trace w' = trace w ++ ESubmit t :: evs ∧ quiet evs.
Proof.
  unfold submit, mbind, M_bind, log. simpl.
  destruct (yield_ok (mkWorld (fs w) (trace w ++ [ESubmit t]) (pending w ++ [t]) (sched w)))
    as [w1 Hy].
  unfold set_pending. simpl. rewrite Hy. intros H. injection H as <- <-.
  destruct (yield_pool _ _ _ Hy) as [Hf (evs & Ht & Hq)]. simpl in *.
  split; [reflexivity|]. split; [assumption|].
  exists evs. split; [|assumption]. by rewrite Ht, <- app_assoc.
Qed.

Lemma read_file_inv p w r w' : read_file E p w = (r, w') → w' = w.
Proof.
  unfold read_file. destruct (String.eqb p ""); [congruence|].
  destruct (key E p); [congruence|].
  destruct (fs w !! _) as [[|]|]; congruence.
Qed.

(** *** The main thread: what it submits, and that only [write_meta]
    writes a descriptor *)

Lemma main_rel_refl w : main_rel [] w w.
Proof. split; [by rewrite app_nil_r | reflexivity]. Qed.

Lemma main_rel_trans ts1 ts2 w1 w2 w3 :
  main_rel ts1 w1 w2 → main_rel ts2 w2 w3 → main_rel (ts1 ++ ts2) w1 w3.
Proof.
  intros [Hs1 Hm1] [Hs2 Hm2]. split.
  - by rewrite Hs2, Hs1, app_assoc.
  - congruence.
Qed.

Lemma pool_main w w' : pool_rel w w' → main_rel [] w w'.
Proof.
  intros [_ (evs & Ht & Hq)]. split; rewrite Ht.
  - by rewrite quiet_submitted, app_nil_r.
  - by rewrite quiet_metas.
Qed.

Lemma submit_main t w r w' :
  submit E t w = (r, w') → r = Ok tt ∧ main_rel [t] w w'.
Proof.
  intros H. apply submit_inv in H as (-> & _ & evs & Ht & Hq).
  split; [reflexivity|].
  change (ESubmit t :: evs) with ([ESubmit t] ++ evs) in Ht.
  rewrite app_assoc in Ht. split; rewrite Ht.
  - rewrite quiet_submitted by assumption. unfold submitted.
    rewrite flat_map_app. reflexivity.
  - rewrite quiet_metas by assumption. unfold metas.
    rewrite flat_map_app. simpl. by rewrite app_nil_r.
Qed.

Lemma append_empty a b : a +:+ b = "" → a = "" ∧ b = "".
Proof. destruct a; [auto | discriminate]. Qed.

Lemma join_empty a b : join a b = "" → a = "" ∧ b = "".
Proof.
  unfold join. destruct (startswith_sep b) eqn:Hb.
  - intros ->. discriminate.
  - destruct (String.eqb a "" || endswith_sep a); intros H.
    + by apply append_empty.
    + apply append_empty in H as [_ H]. discriminate.
Qed.

Lemma relpath_join_ok a b c :
  b ≠ "" → os_path_relpath E (join (join a b) c) (output_dir E)
           = Ok (relpath (getcwd E) (join (join a b) c) (output_dir E)).
Proof.
  intros Hb. unfold os_path_relpath.
  destruct (String.eqb (join (join a b) c) "") eqn:Hj; [|reflexivity].
  apply String.eqb_eq, join_empty in Hj as [Hj _].
  apply join_empty in Hj as [_ Hj]. contradiction.
Qed.

Lemma libraries_loop_spec libs : ∀ cp0 w r w',
  libraries_loop E (join (output_dir E) "libraries") libs cp0 w = (r, w') →
  ∃ ts, main_rel ts w w' ∧
    ∀ cp, r = Ok cp →
      cp = cp0 ++ map (library_classpath_entry E) (kept E libs) ∧
      ts = map (library_task E) (kept E libs) ∧
      Forall has_artifact_path (kept E libs).
Proof.
  induction libs as [|l libs IH]; intros cp0 w r w' H; simpl in H.
  - injection H as <- <-. exists []. split; [apply main_rel_refl|].
    intros cp [= <-]. simpl. rewrite app_nil_r. auto.
  - unfold kept. simpl. destruct (skipped_on (platform_system E) l) eqn:Hskip; simpl.
    { eauto. }
    apply bind_inv in H as [(dp & w1 & H1 & H)|(e & H1 & ->)];
      apply lift_inv in H1 as [H1 ->].
    2: { exists []. split; [apply main_rel_refl | discriminate]. }
    unfold os_path_join in H1. destruct (download_path l) as [| | |p| |] eqn:Hp;
      try discriminate.
    injection H1 as <-.
    assert (Hd : join (join (output_dir E) "libraries") p = library_destination E l).
    { unfold library_destination, artifact_path. by rewrite Hp. }
    apply bind_inv in H as [(? & w2 & H2 & H)|(e & H2 & _)];
      apply submit_main in H2 as [H2 Hm2]; [|discriminate].
    apply bind_inv in H as [(rel & w3 & H3 & H)|(e & H3 & _)];
      apply lift_inv in H3 as [H3 ->];
      rewrite relpath_join_ok in H3 by discriminate; [|discriminate].
    injection H3 as <-. rewrite Hd in H, Hm2.
    destruct (IH _ _ _ _ H) as (ts & Hm & Hcp).
    exists ([library_task E l] ++ ts).
    split; [eapply main_rel_trans; eassumption|].
    intros cp Hr. destruct (Hcp cp Hr) as (-> & -> & Hall).
    split; [|split].
    + by rewrite <- app_assoc.
    + reflexivity.
    + constructor; [by exists p | assumption].
Qed.

Lemma objects_loop_spec dir objects : ∀ w r w',
  objects_loop E dir objects w = (r, w') →
  ∃ ts, main_rel ts w w' ∧ (r = Ok tt → object_tasks dir objects = Ok ts).
Proof.
  induction objects as [|o objects IH]; intros w r w' H; simpl in H.
  - injection H as <- <-. exists []. split; [apply main_rel_refl | reflexivity].
  - apply bind_inv in H as [(h & w1 & H1 & H)|(e & H1 & ->)];
      apply lift_inv in H1 as [H1 ->].
    2: { exists []. split; [apply main_rel_refl | discriminate]. }
    apply bind_inv in H as [(t & w2 & H2 & H)|(e & H2 & ->)];
      apply lift_inv in H2 as [H2 ->].
    2: { exists []. split; [apply main_rel_refl | discriminate]. }
    apply bind_inv in H as [(? & w3 & H3 & H)|(e & H3 & _)];
      apply submit_main in H3 as [H3 Hm3]; [|discriminate].
    destruct (IH _ _ _ H) as (ts & Hm & Hts).
    exists ([t] ++ ts). split; [eapply main_rel_trans; eassumption|].
    intros Hr. unfold object_tasks in *. simpl. rewrite H1. simpl. rewrite H2. simpl.
    rewrite (Hts Hr). reflexivity.
Qed.

#[local] Instance progress_refl : Reflexive progress.
Proof. intros w. exists []. apply main_rel_refl. Qed.

#[local] Instance progress_trans : Transitive progress.
Proof.
  intros w1 w2 w3 [ts1 H1] [ts2 H2]. exists (ts1 ++ ts2).
  eapply main_rel_trans; eassumption.
Qed.

Lemma pool_progress {A} (m : M A) : rel pool_rel m → rel progress m.
Proof. intros Hm w r w' H. exists []. apply pool_main. eapply Hm; eassumption. Qed.

Lemma submit_progress t : rel progress (submit E t).
Proof. intros w r w' H. exists [t]. by apply submit_main in H as [_ ?]. Qed.

Lemma read_file_progress p : rel progress (read_file E p).
Proof. intros w r w' H. apply read_file_inv in H as ->. reflexivity. Qed.

Lemma libraries_loop_progress libs cp0 :
  rel progress (libraries_loop E (join (output_dir E) "libraries") libs cp0).
Proof.
  intros w r w' H. destruct (libraries_loop_spec _ _ _ _ _ H) as (ts & Hm & _).
  by exists ts.
Qed.

Lemma objects_loop_progress dir objects : rel progress (objects_loop E dir objects).
Proof.
  intros w r w' H. destruct (objects_loop_spec _ _ _ _ _ H) as (ts & Hm & _).
  by exists ts.
Qed.

Lemma write_file_inv p content w r w' :
  write_file E p content w = (r, w') →
  trace w' = trace w ∧
  (r = Ok tt → node_at E (fs w') p = Some (File content)).
Proof.
  unfold write_file, node_at. destruct (String.eqb p "").
  { intros H. injection H as <- <-. split; [reflexivity | discriminate]. }
  destruct (key E p) as [|c k].
  { intros H. injection H as <- <-. split; [reflexivity | discriminate]. }
  assert (Hins : ∀ f, <[c :: k := File content]> f !! (c :: k) = Some (File content))
    by (intros; apply lookup_insert_eq).
  destruct (fs w !! (c :: k)) as [[|]|];
    try destruct (parent_is_dir (fs w) (c :: k));
    intros H; injection H as <- <-; simpl; split; auto; discriminate.
Qed.

Lemma write_meta_raised dest vd cp ad : rel_raised progress (write_meta E dest vd cp ad).
Proof.
  intros w e w' H. unfold write_meta in H.
  assert (Hsame : ∀ w1 w2 : World, trace w2 = trace w1 → progress w1 w2).
  { intros w1 w2 Ht. exists []. unfold main_rel. rewrite Ht. by rewrite app_nil_r. }
  apply bind_inv in H as [(? & w1 & H1 & H)|(e1 & H1 & _)];
    apply write_file_inv in H1 as [Ht1 _]; [|by apply Hsame].
  apply bind_inv in H as [(? & w2 & H2 & H)|(e2 & H2 & _)];
    apply lift_inv in H2 as [_ ->]; [|by apply Hsame].
  apply bind_inv in H as [(? & w3 & H3 & H)|(e3 & H3 & _)];
    apply write_file_inv in H3 as [Ht3 _]; [|apply Hsame; congruence].
  discriminate.
Qed.

Lemma write_meta_ok dest vd cp ad w w' :
  ad ≠ "" →
  write_meta E dest vd cp ad w = (Ok tt, w') →
  let doc := descriptor E vd cp (relpath (getcwd E) ad (output_dir E)) in
  trace w' = trace w ++ [EMeta dest doc] ∧
  node_at E (fs w') dest = Some (File (Doc doc)).
Proof.
  intros Had H. unfold write_meta in H.
  apply bind_ok in H as (? & w1 & H1 & H). apply write_file_inv in H1 as [Ht1 _].
  apply bind_ok in H as (rel & w2 & H2 & H). apply lift_inv in H2 as [H2 ->].
  unfold os_path_relpath in H2. destruct (String.eqb ad "") eqn:Hz.
  { apply String.eqb_eq in Hz. contradiction. }
  injection H2 as <-.
  apply bind_ok in H as ([] & w3 & H3 & H). apply write_file_inv in H3 as [Ht3 Hn3].
  unfold log in H. injection H as <-. simpl. split; [congruence | auto].
Qed.

Ltac progress_step :=
  first
    [ apply pool_progress;
      first [apply makedirs_pool | apply download_file_pool | apply yield_pool]
    | apply submit_progress
    | apply libraries_loop_progress
    | apply objects_loop_progress
    | apply read_file_progress
    | apply rel_lift; typeclasses eauto
    | apply rel_lift ].

Lemma download_minecraft_structure_raised vd :
  rel_raised progress (download_minecraft_structure E vd).
Proof.
  unfold download_minecraft_structure.
  repeat (apply rel_raised_bind; [typeclasses eauto | progress_step | intros ?]).
  apply write_meta_raised.
Qed.

Lemma download_minecraft_structure_ok vd w w' :
  download_minecraft_structure E vd w = (Ok tt, w') →
  let doc := descriptor E vd (map (library_classpath_entry E) (kept E (libraries vd)))
               (assets_dir_of E) in
  Forall has_artifact_path (kept E (libraries vd)) ∧
  (∃ ots, submitted (trace w') =
          submitted (trace w) ++
          client_task E vd :: map (library_task E) (kept E (libraries vd)) ++ ots) ∧
  (∃ tr, trace w' = tr ++ [EMeta (meta_path E) doc] ∧ metas tr = metas (trace w)) ∧
  node_at E (fs w') (meta_path E) = Some (File (Doc doc)).
Proof.
  unfold download_minecraft_structure. intros H.
  apply bind_ok in H as (? & w1 & H1 & H).
  apply makedirs_pool, pool_main in H1.
  apply bind_ok in H as (? & w2 & H2 & H).
  apply makedirs_pool, pool_main in H2.
  apply bind_ok in H as (? & w3 & H3 & H).
  apply makedirs_pool, pool_main in H3.
  apply bind_ok in H as (? & w4 & H4 & H).
  apply makedirs_pool, pool_main in H4.
  apply bind_ok in H as (? & w5 & H5 & H).
  apply submit_main in H5 as [_ H5].
  apply bind_ok in H as (cp & w6 & H6 & H).
  apply libraries_loop_spec in H6 as (ts & H6 & Hcp).
  destruct (Hcp cp eq_refl) as (-> & -> & Hall). clear Hcp.
  apply bind_ok in H as (? & w7 & H7 & H).
  apply download_file_pool, pool_main in H7.
  apply bind_ok in H as (? & w8 & H8 & H).
  apply yield_pool, pool_main in H8.
  apply bind_ok in H as (content & w9 & H9 & H).
  apply read_file_inv in H9 as ->.
  apply bind_ok in H as (? & w10 & H10 & H).
  apply yield_pool, pool_main in H10.
  apply bind_ok in H as (index & w11 & H11 & H). apply lift_inv in H11 as [_ ->].
  apply bind_ok in H as (objects & w12 & H12 & H). apply lift_inv in H12 as [_ ->].
  apply bind_ok in H as (vals & w13 & H13 & H). apply lift_inv in H13 as [_ ->].
  apply bind_ok in H as (? & w14 & H14 & H).
  apply objects_loop_spec in H14 as (ots & H14 & _).
  apply write_meta_ok in H as [Ht Hn].
  2: { intros Hj. apply join_empty in Hj as [_ Hj]. discriminate. }
  pose proof (main_rel_trans _ _ _ _ _ H1
    (main_rel_trans _ _ _ _ _ H2
    (main_rel_trans _ _ _ _ _ H3
    (main_rel_trans _ _ _ _ _ H4
    (main_rel_trans _ _ _ _ _ H5
    (main_rel_trans _ _ _ _ _ H6
    (main_rel_trans _ _ _ _ _ H7
    (main_rel_trans _ _ _ _ _ H8
    (main_rel_trans _ _ _ _ _ H10 H14))))))))) as [Hs Hm].
  simpl in Hs. simpl. split; [assumption|]. split; [|split].
  - exists ots. rewrite Ht. unfold submitted at 1. rewrite flat_map_app. simpl.
    rewrite app_nil_r. exact Hs.
  - eexists. split; [exact Ht | exact Hm].
  - exact Hn.
Qed.

End RunFacts.

(** ** Resolving the version *)

Section VersionFacts.

Variable E : Env.

#[local] Instance fetch_rel_refl : Reflexive fetch_rel.
Proof.
  intros w. repeat split. exists []. split; [by rewrite app_nil_r | constructor].
Qed.

#[local] Instance fetch_rel_trans : Transitive fetch_rel.
Proof.
  intros w1 w2 w3 (Hf1 & Hp1 & Hs1 & e1 & Ht1 & Hq1) (Hf2 & Hp2 & Hs2 & e2 & Ht2 & Hq2).
  repeat split; try congruence.
  exists (e1 ++ e2). split.
  - by rewrite Ht2, Ht1, app_assoc.
  - apply Forall_app; auto.
Qed.

Lemma log_fetch u : rel fetch_rel (log (EFetch u)).
Proof.
  intros w r w' H. injection H as _ <-. repeat split. simpl.
  exists [EFetch u]. split; [reflexivity|]. repeat constructor. by exists u.
Qed.

Lemma requests_get_json_fetch url : rel fetch_rel (requests_get_json E url).
Proof.
  intros w r w' H. unfold requests_get_json in H.
  destruct url; try (injection H as _ <-; reflexivity).
  unfold mbind, M_bind, log, lift in H. simpl in H. injection H as _ <-.
  repeat split. simpl. exists [EFetch s]. split; [reflexivity|].
  repeat constructor. by exists s.
Qed.

Lemma get_version_data_fetch t : rel fetch_rel (get_version_data E t).
Proof.
  unfold get_version_data, get_manifest.
  repeat (apply rel_bind; [typeclasses eauto | | intros ?]);
    first [ apply requests_get_json_fetch | apply log_fetch
          | apply rel_lift; typeclasses eauto ].
Qed.

Lemma fetch_rel_projections w w' :
  fetch_rel w w' →
  submitted (trace w') = submitted (trace w) ∧
  metas (trace w') = metas (trace w) ∧
  downloads (trace w') = downloads (trace w).
Proof.
  intros (_ & _ & _ & evs & -> & Hq).
  unfold submitted, metas, downloads. rewrite !flat_map_app.
  induction Hq as [|e evs [u ->] _ IH]; simpl.
  - by rewrite !app_nil_r.
  - exact IH.
Qed.

Lemma find_version_absent vs t :
  Forall (fun v => mv_id v ≠ JStr t) vs →
  find_version vs t = Raise (ValueError "Invalid version provided: not found").
Proof.
  induction 1 as [|v vs Hv _ IH]; simpl; [reflexivity|].
  destruct (is_str t (mv_id v)) eqn:Hs; [|exact IH].
  unfold is_str in Hs. destruct (mv_id v); try discriminate.
  apply String.eqb_eq in Hs. congruence.
Qed.

End VersionFacts.

(** C4. When the manifest has no version whose id is the requested
    string, character for character, the run stops with the "not found"
    [ValueError]: the manifest has been requested, and nothing else has
    happened, no file written, no task submitted, no download. *)
Theorem unknown_version_aborts_before_any_download
    (E : Env) (w : World) (status : Z) (data : json) (manifest : Manifest) :
  output_dir E ≠ "" →
  mc_version E ≠ "" →
  net E MANIFEST_URL = Complete status (Doc data) →
  manifest_of data = Ok manifest →
  Forall (fun v => mv_id v ≠ JStr (mc_version E)) (versions manifest) →
  get_version_data E (mc_version E) w
  = (Raise (ValueError "Invalid version provided: not found"),
     mkWorld (fs w) (trace w ++ [EFetch MANIFEST_URL]) (pending w) (sched w)) ∧
  main E w
  = (Raise (ValueError "Invalid version provided: not found"),
     mkWorld (fs w) (trace w ++ [EFetch MANIFEST_URL]) (pending w) (sched w)).
Proof.
  intros Ho Hv Hnet Hm Hall.
  assert (Hg : get_version_data E (mc_version E) w
    = (Raise (ValueError "Invalid version provided: not found"),
       mkWorld (fs w) (trace w ++ [EFetch MANIFEST_URL]) (pending w) (sched w))).
  { unfold get_version_data, get_manifest, requests_get_json, mbind, M_bind, log, lift.
    simpl. rewrite Hnet. simpl. rewrite Hm.
    by rewrite (find_version_absent _ _ Hall). }
  split; [exact Hg|].
  unfold main, mbind, M_bind.
  apply String.eqb_neq in Ho, Hv. rewrite Ho, Hv. simpl.
  by rewrite Hg.
Qed.

(** The snapshot is in the manifest as [23w31a]; [23W31A] is not found. *)
Lemma unknown_version_upper_case :
  get_version_data (scenario "Linux" "" "" "23W31A") "23W31A" lazy_start
  = (Raise not_found, mkWorld home [EFetch MANIFEST_URL] [] []) ∧
  main (scenario "Linux" "" "" "23W31A") lazy_start
  = (Raise not_found, mkWorld home [EFetch MANIFEST_URL] [] []).
Proof.
  apply (unknown_version_aborts_before_any_download
           (scenario "Linux" "" "" "23W31A") lazy_start 200 manifest_doc
           scenario_manifest).
  - discriminate.
  - discriminate.
  - reflexivity.
  - reflexivity.
  - repeat constructor; discriminate.
Defined.

(** ** The descriptor *)

Lemma metas_nil_after_meta tr : metas tr = [] → after_meta tr = [].
Proof.
  induction tr as [|e tr IH]; simpl; [reflexivity|].
  destruct e; simpl; auto. discriminate.
Qed.

Lemma after_meta_app tr d doc evs :
  metas tr = [] → after_meta (tr ++ EMeta d doc :: evs) = evs.
Proof.
  induction tr as [|e tr IH]; simpl; [reflexivity|].
  destruct e; simpl; auto. discriminate.
Qed.

Lemma metas_app tr tr' : metas (tr ++ tr') = metas tr ++ metas tr'.
Proof. apply flat_map_app. Qed.

(** C1 (as amended). A run writes the descriptor at most once, after the
    last task has been submitted, and exactly when the main thread raises
    nothing; whether the submitted tasks have finished, or failed, plays no
    part. *)
Theorem descriptor_written_once_after_submissions
    (E : Env) (w : World) (r : result unit) (w' : World) :
  metas (trace w) = [] →
  main E w = (r, w') →
  (length (metas (trace w')) ≤ 1)%nat ∧
  (metas (trace w') ≠ [] ↔ r = Ok tt) ∧
  submitted (after_meta (trace w')) = [].
Proof.
  intros Hm0 H.
  assert (Hstop : ∀ e w1, metas (trace w1) = [] → r = Raise e → w' = w1 →
    (length (metas (trace w')) ≤ 1)%nat ∧
    (metas (trace w') ≠ [] ↔ r = Ok tt) ∧
    submitted (after_meta (trace w')) = []).
  { intros e w1 Hm -> ->. rewrite Hm, (metas_nil_after_meta _ Hm). simpl.
    split; [lia|]. split; [|reflexivity]. split; [congruence | discriminate]. }
  unfold main in H.
  apply bind_inv in H as [(? & w1 & H1 & H)|(e & H1 & ->)].
  2: { destruct (String.eqb (output_dir E) ""); [|discriminate].
       injection H1 as _ <-. eauto. }
  assert (w1 = w) as ->.
  { destruct (String.eqb (output_dir E) ""); [discriminate|]. by injection H1. }
  clear H1.
  apply bind_inv in H as [(? & w1 & H1 & H)|(e & H1 & ->)].
  2: { destruct (String.eqb (mc_version E) ""); [|discriminate].
       injection H1 as _ <-. eauto. }
  assert (w1 = w) as ->.
  { destruct (String.eqb (mc_version E) ""); [discriminate|]. by injection H1. }
  clear H1.
  apply bind_inv in H as [(vd & w1 & H1 & H)|(e & H1 & ->)];
    apply get_version_data_fetch, fetch_rel_projections in H1 as (_ & Hm1 & _);
    rewrite Hm0 in Hm1.
  2: { eauto. }
  apply with_executor_inv in H as (w2 & H & [_ (evs & Ht & Hq)]).
  destruct r as [[]|e].
  - apply download_minecraft_structure_ok in H as (_ & _ & (tr & Htr & Hmtr) & _).
    assert (Hme : metas evs = []) by apply (quiet_metas [] evs Hq).
    assert (Hse : submitted evs = []) by apply (quiet_submitted [] evs Hq).
    rewrite Hm1 in Hmtr. rewrite Ht, Htr, <- app_assoc.
    change ([EMeta (meta_path E) ?doc] ++ evs) with (EMeta (meta_path E) doc :: evs).
    rewrite after_meta_app by assumption.
    rewrite metas_app, Hmtr.
    change (metas (EMeta ?d ?doc :: evs)) with ((d, doc) :: metas evs).
    rewrite Hme. simpl.
    split; [lia|]. split; [split; [reflexivity | discriminate]|].
    exact Hse.
  - apply download_minecraft_structure_raised in H as [ts [_ Hm2]].
    apply (Hstop e w'); [|reflexivity|reflexivity].
    rewrite Ht, quiet_metas by assumption. congruence.
Qed.

Lemma descriptor_written_once_in_scenario :
  (length (metas (trace (snd (main gson_broken lazy_start)))) ≤ 1)%nat ∧
  (metas (trace (snd (main gson_broken lazy_start))) ≠ [] ↔
   fst (main gson_broken lazy_start) = Ok tt) ∧
  submitted (after_meta (trace (snd (main gson_broken lazy_start)))) = [].
Proof.
  apply (descriptor_written_once_after_submissions gson_broken lazy_start).
  - reflexivity.
  - vm_compute. reflexivity.
Defined.

(** C1 as stated fails: the request for one library is answered 404, its
    task raises, and the run still ends well with the descriptor on disk;
    the descriptor was written before any of the six tasks had finished. *)
Lemma descriptor_written_despite_failed_task :
  fst (main gson_broken lazy_start) = Ok tt ∧
  failed (trace (snd (main gson_broken lazy_start)))
  = [(JStr "https://m/gson.jar", "out/libraries/b/gson.jar")] ∧
  length (metas (trace (snd (main gson_broken lazy_start)))) = 1%nat ∧
  exists_in gson_broken (fs (snd (main gson_broken lazy_start))) "out/nelius.meta"
  = true ∧
  length (submitted (trace (snd (main gson_broken lazy_start)))) = 6%nat ∧
  finished (after_meta (trace (snd (main gson_broken lazy_start))))
  = submitted (trace (snd (main gson_broken lazy_start))).
Proof. vm_compute. repeat split. Qed.

(** ** One file *)

Section FetchFacts.

Variable E : Env.

Lemma makedirs_absent p w r w' (k : path) :
  makedirs E p w = (r, w') → fs w !! k = None →
  fs w' !! k = None ∨ fs w' !! k = Some Dir.
Proof.
  unfold makedirs. destruct (String.eqb p "").
  - intros H. injection H as _ <-. auto.
  - destruct (mkdirs [] (key E p) (fs w)) as [r1 f1] eqn:Hm.
    intros H. injection H as _ <-. simpl. eapply mkdirs_absent. eassumption.
Qed.

Lemma no_file_at f dest :
  node_at E f dest = None ∨ node_at E f dest = Some Dir →
  ∀ c, node_at E f dest ≠ Some (File c).
Proof. intros [-> | ->] c; discriminate. Qed.

Lemma node_at_after_makedirs p dest w r w' :
  makedirs E p w = (r, w') → node_at E (fs w) dest = None →
  node_at E (fs w') dest = None ∨ node_at E (fs w') dest = Some Dir.
Proof.
  intros H Hn. unfold node_at in *. destruct (key E dest) as [|c k]; [discriminate|].
  eapply makedirs_absent; eassumption.
Qed.

Lemma exists_in_absent f dest : node_at E f dest = None → exists_in E f dest = false.
Proof.
  intros Hn. unfold exists_in. destruct (String.eqb dest ""); [reflexivity|].
  apply bool_decide_eq_false. rewrite Hn. by intros [? ?].
Qed.

End FetchFacts.

(** C6 (as amended). When nothing is at the destination and the request
    gets no response, or a response with a 4xx or 5xx status, or has a URL
    that is not a string, [download_file] raises and leaves no file at the
    destination. *)
Theorem failed_request_leaves_no_file
    (E : Env) (url : json) (dest : string) (w : World) :
  node_at E (fs w) dest = None →
  request_fails E url →
  ∃ e w', download_file E url dest w = (Raise e, w') ∧
          ∀ c, node_at E (fs w') dest ≠ Some (File c).
Proof.
  intros Hn Hfail. unfold download_file, mbind, M_bind, path_exists.
  rewrite (exists_in_absent _ _ _ Hn).
  destruct (makedirs E (dirname dest) w) as [[[]|e1] w1] eqn:Hmk;
    pose proof (node_at_after_makedirs _ _ _ _ _ _ Hmk Hn) as Hn1.
  2: { eexists _, _. split; [reflexivity|]. by apply no_file_at. }
  unfold session_get, request_fails in *.
  destruct url as [| | |u| |];
    try (eexists _, _; split; [reflexivity|]; by apply no_file_at).
  unfold mbind, M_bind, log, raise, mret, M_ret, lift. simpl.
  assert (Hst : ∀ status, 400 <= status < 600 →
            raise_for_status status = Raise (HTTPError status)).
  { intros status [H1 H2]. unfold raise_for_status.
    apply Z.leb_le in H1. apply Z.ltb_lt in H2. by rewrite H1, H2. }
  destruct (net E u) as [|status content|status received];
    [|rewrite (Hst _ Hfail)..];
    (eexists _, _; split; [reflexivity|]; simpl; by apply no_file_at).
Qed.

Lemma gson_request_leaves_no_file :
  ∃ e w', download_file gson_broken (JStr "https://m/gson.jar")
            "out/libraries/b/gson.jar" lazy_start = (Raise e, w') ∧
          ∀ c, node_at gson_broken (fs w') "out/libraries/b/gson.jar" ≠ Some (File c).
Proof.
  apply (failed_request_leaves_no_file gson_broken (JStr "https://m/gson.jar")
           "out/libraries/b/gson.jar" lazy_start).
  - vm_compute. reflexivity.
  - unfold request_fails. simpl. lia.
Defined.

(** C6 as stated fails: a response with status 300 is not a 2xx response,
    [raise_for_status] lets it pass, and its body becomes the file. *)
Lemma status_300_creates_the_file :
  net (scenario "Linux" "" "https://m/odd" "1.20") "https://m/odd"
  = Complete 300 (Blob "choices") ∧
  node_at (scenario "Linux" "" "https://m/odd" "1.20") (fs lazy_start) "out/odd.bin"
  = None ∧
  fst (download_file (scenario "Linux" "" "https://m/odd" "1.20")
         (JStr "https://m/odd") "out/odd.bin" lazy_start) = Ok tt ∧
  node_at (scenario "Linux" "" "https://m/odd" "1.20")
    (fs (snd (download_file (scenario "Linux" "" "https://m/odd" "1.20")
                (JStr "https://m/odd") "out/odd.bin" lazy_start)))
    "out/odd.bin"
  = Some (File (Blob "choices")).
Proof. vm_compute. repeat split. Qed.

(** A stream that breaks after the status has passed [raise_for_status]
    is the other way to a file that [download_file] did not finish: the
    call raises and the bytes received stay. *)
Example broken_stream_leaves_truncated_file :
  download_file flaky (JStr "https://m/client.jar") "out/client.jar" lazy_start
  = (Raise RequestException,
     mkWorld (<[ ["home"; "u"; "out"; "client.jar"] := File (Blob "PK") ]>
               (<[ ["home"; "u"; "out"] := Dir ]> home))
       [EDownload "https://m/client.jar" "out/client.jar"] [] []).
Proof. vm_compute. reflexivity. Qed.

(** C9. A detail document without [downloads.server.url] makes
    [get_version_data] raise, after the two requests and before anything
    is submitted or written; and the URL it insists on plays no part in
    [download_minecraft_structure], which behaves the same whatever the
    field holds. *)
Theorem server_url_required_but_unused
    (E : Env) (w : World) (status status' : Z) (data d : json)
    (manifest : Manifest) (version : ManifestVersion) (u : string) :
  net E MANIFEST_URL = Complete status (Doc data) →
  manifest_of data = Ok manifest →
  find_version (versions manifest) (mc_version E) = Ok version →
  mv_url version = JStr u →
  net E u = Complete status' (Doc d) →
  ¬ has_server_url d →
  (∃ e, version_data_of d = Raise e ∧
        get_version_data E (mc_version E) w
        = (Raise e, mkWorld (fs w) (trace w ++ [EFetch MANIFEST_URL; EFetch u])
                      (pending w) (sched w))) ∧
  (∀ vd s, download_minecraft_structure E (with_server_jar_url s vd)
           = download_minecraft_structure E vd).
Proof.
  intros Hnet Hm Hfind Hurl Hnet' Hno. split.
  - destruct (version_data_of d) as [vd|e] eqn:Hvd.
    { exfalso. apply Hno. apply version_data_of_server in Hvd as (dl & sv & ? & ? & ?).
      exists dl, sv, (server_jar_url vd). auto. }
    exists e. split; [reflexivity|].
    unfold get_version_data, get_manifest, requests_get_json, mbind, M_bind, log, lift.
    simpl. rewrite Hnet. simpl. rewrite Hm, Hfind, Hurl. simpl.
    rewrite Hnet'. simpl. rewrite Hvd. by rewrite <- app_assoc.
  - intros [] s. reflexivity.
Qed.

Lemma serverless_details_rejected :
  (∃ e, version_data_of details_without_server = Raise e ∧
        get_version_data serverless (mc_version serverless) lazy_start
        = (Raise e,
           mkWorld (fs lazy_start)
             (trace lazy_start ++ [EFetch MANIFEST_URL; EFetch "https://m/1.20.json"])
             (pending lazy_start) (sched lazy_start))) ∧
  (∀ vd s, download_minecraft_structure serverless (with_server_jar_url s vd)
           = download_minecraft_structure serverless vd).
Proof.
  apply (server_url_required_but_unused serverless lazy_start 200 200 manifest_doc
           details_without_server scenario_manifest
           (mkManifestVersion (JStr "1.20") (JStr "release") (JStr "https://m/1.20.json"))
           "https://m/1.20.json").
  - reflexivity.
  - reflexivity.
  - reflexivity.
  - reflexivity.
  - reflexivity.
  - intros (dl & sv & u & H1 & H2 & H3). vm_compute in H1. injection H1 as <-.
    vm_compute in H2. discriminate.
Defined.

(** ** The objects of the asset index *)











(** ** The classpath *)

Section ClasspathFacts.

Variable E : Env.


Lemma node_at_weaken f f' p n :
  f ⊆ f' → node_at E f p = Some n → node_at E f' p = Some n.
Proof.
  unfold node_at. intros Hsub. destruct (key E p); [auto|].
  intros H. eapply lookup_weaken; eassumption.
Qed.

Lemma classpath_loop_strs game_dir cp : ∀ acc,
  classpath_loop E game_dir (map JStr cp) acc
  = Ok (acc ++ map (fun p => abspath (getcwd E) (join game_dir p)) cp).
Proof.
  induction cp as [|p cp IH]; intros acc; simpl.
  - by rewrite app_nil_r.
  - rewrite IH. by rewrite <- app_assoc.
Qed.

Lemma launch_classpath_descriptor vd cp ad :
  launch_classpath E (descriptor E vd cp ad) (meta_path E) = Ok (launched_classpath E cp).
Proof.
  unfold launch_classpath, descriptor. simpl.
  rewrite classpath_loop_strs. reflexivity.
Qed.

Lemma meta_path_nonempty : String.eqb (meta_path E) "" = false.
Proof.
  apply String.eqb_neq. intros H. apply join_empty in H as [_ H]. discriminate.
Qed.

Lemma read_file_at p c w :
  String.eqb p "" = false → node_at E (fs w) p = Some (File c) →
  read_file E p w = (Ok c, w).
Proof.
  unfold read_file, node_at. intros -> H.
  destruct (key E p); [discriminate|]. by rewrite H.
Qed.


End ClasspathFacts.



(** ** Constraints the loop does not know *)

Lemma is_str_false s v : v ≠ JStr s → is_str s v = false.
Proof.
  intros Hne. destruct v; try reflexivity. simpl.
  apply String.eqb_neq. congruence.
Qed.

(** C10. A library whose constraint is none of [windows], [linux] and
    [osx] passes the three tests on every host: its task is submitted and
    its path is in the classpath of the descriptor. *)
Theorem unrecognized_constraint_is_kept
    (E : Env) (vd : VersionData) (l : Library) (w w' : World) :
  In l (libraries vd) →
  operating_system l ≠ JStr "windows" →
  operating_system l ≠ JStr "linux" →
  operating_system l ≠ JStr "osx" →
  download_minecraft_structure E vd w = (Ok tt, w') →
  skipped_on (platform_system E) l = false ∧
  In (library_task E l) (submitted (trace w')) ∧
  ∃ doc cp,
    node_at E (fs w') (meta_path E) = Some (File (Doc doc)) ∧
    py_getitem doc "classpath_relative" = Ok (JArr (map JStr cp)) ∧
    In (library_classpath_entry E l) cp.
Proof.
  intros Hin Hw Hl Ho H.
  assert (Hskip : skipped_on (platform_system E) l = false).
  { unfold skipped_on. by rewrite !is_str_false. }
  assert (Hkept : In l (kept E (libraries vd))).
  { unfold kept. apply filter_In. split; [assumption|]. by rewrite Hskip. }
  apply download_minecraft_structure_ok in H as (_ & (ots & Hs) & _ & Hn).
  split; [assumption|]. split.
  - rewrite Hs. apply in_or_app. right. right. apply in_or_app. left.
    by apply in_map.
  - eexists _, _. split; [exact Hn|]. split; [reflexivity|]. by apply in_map.
Qed.

Lemma freebsd_library_kept_on_mac :
  let E := mac_run in
  let vd := freebsd_version_data in
  let w' := snd (download_minecraft_structure E vd lazy_start) in
  skipped_on (platform_system E) freebsd_library = false ∧
  In (library_task E freebsd_library) (submitted (trace w')) ∧
  ∃ doc cp,
    node_at E (fs w') (meta_path E) = Some (File (Doc doc)) ∧
    py_getitem doc "classpath_relative" = Ok (JArr (map JStr cp)) ∧
    In (library_classpath_entry E freebsd_library) cp.
Proof.
  apply (unrecognized_constraint_is_kept mac_run freebsd_version_data
           freebsd_library lazy_start).
  - left. reflexivity.
  - discriminate.
  - discriminate.
  - discriminate.
  - vm_compute. reflexivity.
Defined.

(** ** Files that are already there *)

Section PresentFacts.

Variable E : Env.

Lemma download_file_present url dest w :
  exists_in E (fs w) dest = true → download_file E url dest w = (Ok tt, w).
Proof.
  intros Hex. unfold download_file, mbind, M_bind, path_exists. by rewrite Hex.
Qed.

Lemma exists_in_mono f f' p :
  f ⊆ f' → exists_in E f p = true → exists_in E f' p = true.
Proof.
  unfold exists_in. intros Hsub. destruct (String.eqb p ""); [auto|].
  intros H. apply bool_decide_eq_true in H as [n Hn].
  apply bool_decide_eq_true. exists n. eapply node_at_weaken; eassumption.
Qed.

#[local] Instance calm_refl f0 : Reflexive (calm E f0).
Proof. intros w Hsub Hr. auto. Qed.

#[local] Instance calm_trans f0 : Transitive (calm E f0).
Proof.
  intros w1 w2 w3 H12 H23 Hsub Hr.
  destruct (H12 Hsub Hr) as (Hsub2 & Hr2 & Hd2).
  destruct (H23 Hsub2 Hr2) as (Hsub3 & Hr3 & Hd3).
  repeat split; [assumption | assumption | congruence].
Qed.

Lemma run_task_present t w :
  exists_in E (fs w) (snd t) = true →
  run_task E t w = mkWorld (fs w) (trace w ++ [EDone t (Ok tt)]) (pending w) (sched w).
Proof. intros Hex. unfold run_task. by rewrite (download_file_present _ _ _ Hex). Qed.

Lemma downloads_app tr tr' : downloads (tr ++ tr') = downloads tr ++ downloads tr'.
Proof. apply flat_map_app. Qed.

Lemma pool_step_calm f0 w i : calm E f0 w (pool_step E w i).
Proof.
  intros Hsub Hr. unfold pool_step.
  destruct (pending w !! _) as [t|] eqn:Hl; [|auto].
  assert (Hex : exists_in E (fs (set_pending (delete (i mod length (pending w))%nat
                                                (pending w)) w)) (snd t) = true).
  { simpl. exact (Forall_lookup_1 _ _ _ _ Hr Hl). }
  rewrite (run_task_present _ _ Hex). simpl.
  split; [assumption|]. split.
  - unfold ready. simpl. by apply Forall_delete.
  - rewrite downloads_app. simpl. by rewrite app_nil_r.
Qed.

Lemma foldl_calm f0 picks : ∀ w, calm E f0 w (foldl (pool_step E) w picks).
Proof.
  induction picks as [|i picks IH]; intros w; simpl; [reflexivity|].
  etrans; [apply pool_step_calm | apply IH].
Qed.

Lemma yield_calm f0 : rel (calm E f0) (yield E).
Proof.
  intros w r w' H. unfold yield in H. destruct (sched w) as [|picks rest].
  - injection H as _ <-. reflexivity.
  - injection H as _ <-. etrans; [|apply foldl_calm].
    intros Hsub Hr. auto.
Qed.

Lemma drain_calm f0 q : ∀ w, pending w = q → calm E f0 w (drain E q w).
Proof.
  induction q as [|t q IH]; intros w Hq; simpl; [reflexivity|].
  intros Hsub Hr. unfold ready in Hr. rewrite Hq in Hr.
  apply Forall_cons in Hr as [Ht Hr].
  assert (Hex : exists_in E (fs (set_pending q w)) (snd t) = true) by exact Ht.
  rewrite (run_task_present _ _ Hex).
  destruct (IH (mkWorld (fs (set_pending q w)) (trace (set_pending q w) ++ [EDone t (Ok tt)])
                  (pending (set_pending q w)) (sched (set_pending q w))) eq_refl)
    as (H1 & H2 & H3); [assumption | exact Hr |].
  split; [assumption|]. split; [assumption|].
  rewrite H3. simpl. rewrite downloads_app. simpl. by rewrite app_nil_r.
Qed.

Lemma makedirs_calm f0 p : rel (calm E f0) (makedirs E p).
Proof.
  intros w r w' H Hsub Hr.
  assert (Hfs : fs w ⊆ fs w' ∧ trace w' = trace w ∧ pending w' = pending w).
  { unfold makedirs in H. destruct (String.eqb p "").
    - injection H as _ <-. auto.
    - destruct (mkdirs [] (key E p) (fs w)) as [r1 f1] eqn:Hm.
      injection H as _ <-. simpl. split; [|auto].
      eapply mkdirs_subseteq; eassumption. }
  destruct Hfs as (Hfs & Ht & Hp).
  split; [etrans; eassumption|]. split; [|by rewrite Ht].
  unfold ready. rewrite Hp. eapply Forall_impl; [exact Hr|].
  intros t. simpl. by apply exists_in_mono.
Qed.

Lemma submit_calm f0 t :
  exists_in E f0 (snd t) = true → rel (calm E f0) (submit E t).
Proof.
  intros Hex w r w' H Hsub Hr. unfold submit, mbind, M_bind, log in H. simpl in H.
  destruct (yield E _) as [r1 w1] eqn:Hy in H.
  assert (Hw : w' = w1) by (destruct r1; by injection H). subst w1.
  apply (yield_calm f0) in Hy. destruct Hy as (H1 & H2 & H3); simpl.
  - assumption.
  - unfold ready. simpl. apply Forall_app. split; [exact Hr|].
    constructor; [|constructor]. eapply exists_in_mono; eassumption.
  - split; [assumption|]. split; [assumption|].
    rewrite H3. simpl. rewrite downloads_app. simpl. by rewrite app_nil_r.
Qed.

Lemma download_file_calm f0 url dest :
  exists_in E f0 dest = true → rel (calm E f0) (download_file E url dest).
Proof.
  intros Hex w r w' H Hsub Hr.
  rewrite download_file_present in H by (eapply exists_in_mono; eassumption).
  injection H as _ <-. auto.
Qed.

Lemma read_file_calm f0 p : rel (calm E f0) (read_file E p).
Proof. intros w r w' H. apply read_file_inv in H as ->. reflexivity. Qed.

Ltac by_rel H R :=
  match type of H with
  | ?m _ = _ =>
      let Hrel := fresh "Hrel" in
      assert (Hrel : rel R m); [ | exact (Hrel _ _ _ H)]
  end.

Lemma libraries_loop_calm f0 libs : ∀ cp0,
  forallb (fun l => exists_in E f0 (library_destination E l)) (kept E libs) = true →
  rel (calm E f0) (libraries_loop E (join (output_dir E) "libraries") libs cp0).
Proof.
  induction libs as [|l libs IH]; intros cp0 Hall; simpl.
  - apply rel_ret. typeclasses eauto.
  - unfold kept in Hall. simpl in Hall.
    destruct (skipped_on (platform_system E) l); simpl in Hall; [by apply IH|].
    apply andb_true_iff in Hall as [Hl Hall].
    intros w r w' H.
    apply bind_inv in H as [(dp & w1 & H1 & H)|(e & H1 & ->)];
      apply lift_inv in H1 as [H1 ->]; [|reflexivity].
    unfold os_path_join in H1. destruct (download_path l) as [| | |p| |] eqn:Hp;
      try discriminate.
    injection H1 as <-.
    assert (Hd : join (join (output_dir E) "libraries") p = library_destination E l).
    { unfold library_destination, artifact_path. by rewrite Hp. }
    rewrite Hd in H. by_rel H (calm E f0).
    apply rel_bind; [typeclasses eauto | by apply submit_calm | intros ?].
    apply rel_bind; [typeclasses eauto | apply rel_lift; typeclasses eauto | intros ?].
    by apply IH.
Qed.

Lemma objects_loop_calm f0 dir objects :
  forallb (fun object_data =>
             match (h ← py_getitem object_data "hash"; object_task dir h) with
             | Ok t => exists_in E f0 (snd t)
             | Raise _ => true
             end) objects = true →
  rel (calm E f0) (objects_loop E dir objects).
Proof.
  induction objects as [|o objects IH]; intros Hall; simpl.
  - apply rel_ret. typeclasses eauto.
  - simpl in Hall. apply andb_true_iff in Hall as [Ho Hall].
    intros w r w' H.
    apply bind_inv in H as [(h & w1 & H1 & H)|(e & H1 & ->)];
      apply lift_inv in H1 as [H1 ->]; [|reflexivity].
    apply bind_inv in H as [(t & w2 & H2 & H)|(e & H2 & ->)];
      apply lift_inv in H2 as [H2 ->]; [|reflexivity].
    rewrite H1 in Ho. simpl in Ho. rewrite H2 in Ho.
    by_rel H (calm E f0).
    apply rel_bind; [typeclasses eauto | by apply submit_calm | intros ?].
    by apply IH.
Qed.

#[local] Instance calm_end_refl f0 : Reflexive (calm_end E f0).
Proof. intros w Hsub Hr. auto. Qed.

Lemma rel_bind_end f0 {A B} (m : M A) (f : A → M B) :
  rel (calm E f0) m → (∀ a, rel (calm_end E f0) (f a)) →
  rel (calm_end E f0) (m ≫= f).
Proof.
  intros Hm Hf w r w' H Hsub Hr.
  destruct (bind_inv _ _ _ _ _ H) as [(a & w1 & H1 & H2)|(e & H1 & _)].
  - destruct (Hm _ _ _ H1 Hsub Hr) as (Hsub1 & Hr1 & Hd1).
    destruct (Hf _ _ _ _ H2 Hsub1 Hr1) as (Hr2 & Hd2).
    split; [assumption | congruence].
  - destruct (Hm _ _ _ H1 Hsub Hr) as (Hsub1 & Hr1 & Hd1). auto.
Qed.

Lemma write_file_dom p c w r w' :
  write_file E p c w = (r, w') →
  trace w' = trace w ∧ pending w' = pending w ∧
  ∀ q, exists_in E (fs w) q = true → exists_in E (fs w') q = true.
Proof.
  unfold write_file. intros H.
  assert (Hins : ∀ k q, exists_in E (fs w) q = true →
                        exists_in E (<[k := File c]> (fs w)) q = true).
  { intros k q. unfold exists_in, node_at. destruct (String.eqb q ""); [auto|].
    destruct (key E q) as [|x kq]; [auto|].
    intros Hq. apply bool_decide_eq_true in Hq. apply bool_decide_eq_true.
    rewrite lookup_insert. case_decide; [eauto | assumption]. }
  destruct (String.eqb p ""); [by injection H as _ <-|].
  destruct (key E p) as [|x k]; [by injection H as _ <-|].
  destruct (fs w !! (x :: k)) as [[|]|];
    try destruct (parent_is_dir (fs w) (x :: k));
    injection H as _ <-; simpl; auto.
Qed.

Lemma write_meta_calm_end f0 dest vd cp ad :
  rel (calm_end E f0) (write_meta E dest vd cp ad).
Proof.
  intros w r w' H Hsub Hr. unfold write_meta in H.
  assert (Hkeep : ∀ w1 w2 : World,
            ready E w1 → trace w2 = trace w1 → pending w2 = pending w1 →
            (∀ q, exists_in E (fs w1) q = true → exists_in E (fs w2) q = true) →
            ready E w2).
  { intros w1 w2 Hr1 _ Hp Hq. unfold ready in *. rewrite Hp.
    eapply Forall_impl; [exact Hr1|]. intros t. apply Hq. }
  apply bind_inv in H as [(? & w1 & H1 & H)|(e1 & H1 & _)];
    apply write_file_dom in H1 as (Ht1 & Hp1 & Hq1);
    pose proof (Hkeep _ _ Hr Ht1 Hp1 Hq1) as Hr1;
    [|split; [assumption | by rewrite Ht1]].
  apply bind_inv in H as [(? & w2 & H2 & H)|(e2 & H2 & _)];
    apply lift_inv in H2 as [_ ->];
    [|split; [assumption | by rewrite Ht1]].
  apply bind_inv in H as [(? & w3 & H3 & H)|(e3 & H3 & _)];
    apply write_file_dom in H3 as (Ht3 & Hp3 & Hq3);
    pose proof (Hkeep _ _ Hr1 Ht3 Hp3 Hq3) as Hr3;
    [|split; [assumption | by rewrite Ht3, Ht1]].
  unfold log in H. injection H as _ <-. split.
  - exact Hr3.
  - simpl. rewrite downloads_app, Ht3, Ht1. simpl. by rewrite app_nil_r.
Qed.

Lemma read_file_ok p w c w' :
  read_file E p w = (Ok c, w') → node_at E (fs w) p = Some (File c).
Proof.
  unfold read_file, node_at. destruct (String.eqb p ""); [discriminate|].
  destruct (key E p); [discriminate|].
  destruct (fs w !! _) as [[|]|]; try discriminate. by intros [= ->].
Qed.

(** Run in a populated directory, [download_minecraft_structure] sends no
    request. *)
Lemma download_minecraft_structure_calm vd f0 :
  populated E f0 vd = true →
  rel (calm_end E f0) (download_minecraft_structure E vd).
Proof.
  unfold populated. intros Hpop.
  apply andb_true_iff in Hpop as [Hpop Hobjs].
  apply andb_true_iff in Hpop as [Hpop Hidx].
  apply andb_true_iff in Hpop as [Hclient Hlibs].
  unfold download_minecraft_structure.
  do 4 (apply rel_bind_end; [apply makedirs_calm | intros ?]).
  apply rel_bind_end; [by apply submit_calm | intros ?].
  apply rel_bind_end; [by apply libraries_loop_calm | intros classpath].
  apply rel_bind_end; [by apply download_file_calm | intros ?].
  apply rel_bind_end; [apply yield_calm | intros ?].
  intros w r w' H Hsub Hr.
  apply bind_inv in H as [(content & w1 & H1 & H)|(e & H1 & ->)].
  2: { apply read_file_inv in H1 as ->. auto. }
  pose proof (read_file_inv _ _ _ _ _ H1) as ->.
  apply read_file_ok in H1.
  assert (Hnode : node_at E f0 (join (join (join (output_dir E) "assets") "indexes")
                    (py_str (repr E) (asset_index_id vd) +:+ ".json"))
                  = Some (File content)).
  { unfold exists_in in Hidx. destruct (String.eqb _ ""); [discriminate|].
    apply bool_decide_eq_true in Hidx as [n Hn].
    pose proof (node_at_weaken _ _ _ _ _ Hsub Hn) as Hn'. congruence. }
  rewrite Hnode in Hobjs.
  revert Hsub Hr. by_rel H (calm_end E f0).
  apply rel_bind_end; [apply yield_calm | intros ?].
  clear H. intros w2 r2 w2' H.
  apply bind_inv in H as [(index & w3 & H3 & H)|(e & H3 & ->)];
    apply lift_inv in H3 as [H3 ->]; [|reflexivity].
  destruct content as [j|]; [|discriminate]. injection H3 as ->.
  apply bind_inv in H as [(objects & w4 & H4 & H)|(e & H4 & ->)];
    apply lift_inv in H4 as [H4 ->]; [|reflexivity].
  apply bind_inv in H as [(vals & w5 & H5 & H)|(e & H5 & ->)];
    apply lift_inv in H5 as [H5 ->]; [|reflexivity].
  rewrite H4 in Hobjs. simpl in Hobjs. rewrite H5 in Hobjs.
  by_rel H (calm_end E f0).
  apply rel_bind_end; [by apply objects_loop_calm | intros ?].
  apply write_meta_calm_end.
Qed.

Lemma with_executor_calm {A} (block : M A) f0 :
  rel (calm_end E f0) block → rel (calm_end E f0) (with_executor E block).
Proof.
  intros Hb w r w' H Hsub Hr. unfold with_executor in H.
  destruct (block w) as [r1 w1] eqn:H1.
  destruct (yield E w1) as [r2 w2] eqn:H2. injection H as _ <-.
  destruct (Hb _ _ _ H1 Hsub Hr) as (Hr1 & Hd1).
  destruct (yield_calm ∅ _ _ _ H2 (map_empty_subseteq _) Hr1) as (_ & Hr2 & Hd2).
  destruct (drain_calm ∅ (pending w2) w2 eq_refl (map_empty_subseteq _) Hr2)
    as (_ & Hr3 & Hd3).
  split; [assumption | congruence].
Qed.

End PresentFacts.

(** C5. [download_file] returns at once when its destination exists,
    whatever is there: nothing is requested and the world is as it was.
    Hence a run in a directory that holds every file it would fetch sends
    no download request: it asks for the manifest and the detail document
    only. *)
Theorem present_files_are_skipped (E : Env) :
  (∀ url dest w,
      path_exists E dest w = (Ok true, w) →
      download_file E url dest w = (Ok tt, w)) ∧
  (∀ w r w',
      pending w = [] →
      (∀ vd w1, get_version_data E (mc_version E) w = (Ok vd, w1) →
                populated E (fs w) vd = true) →
      main E w = (r, w') →
      downloads (trace w') = downloads (trace w)).
Proof.
  split.
  - intros url dest w H. apply path_exists_inv in H as [_ H]. injection H as H.
    by apply download_file_present.
  - intros w r w' Hp Hpop H. unfold main in H.
    apply bind_inv in H as [(? & w1 & H1 & H)|(e & H1 & ->)].
    2: { destruct (String.eqb (output_dir E) ""); [|discriminate].
         by injection H1 as _ <-. }
    assert (w1 = w) as ->.
    { destruct (String.eqb (output_dir E) ""); [discriminate|]. by injection H1. }
    clear H1.
    apply bind_inv in H as [(? & w1 & H1 & H)|(e & H1 & ->)].
    2: { destruct (String.eqb (mc_version E) ""); [|discriminate].
         by injection H1 as _ <-. }
    assert (w1 = w) as ->.
    { destruct (String.eqb (mc_version E) ""); [discriminate|]. by injection H1. }
    clear H1.
    apply bind_inv in H as [(vd & w1 & H1 & H)|(e & H1 & ->)].
    2: { by apply get_version_data_fetch, fetch_rel_projections in H1 as (_ & _ & ?). }
    specialize (Hpop _ _ H1).
    apply get_version_data_fetch in H1.
    pose proof (fetch_rel_projections _ _ H1) as (_ & _ & Hd1).
    destruct H1 as (Hfs & Hpend & _).
    pose proof (with_executor_calm E _ (fs w)
                  (download_minecraft_structure_calm E vd (fs w) Hpop) _ _ _ H) as Hc.
    destruct Hc as [_ Hd];
      [by rewrite Hfs | unfold ready; rewrite Hpend, Hp; constructor | congruence].
Qed.

Lemma second_run_downloads_nothing :
  downloads (trace (snd (main linux_run populated_start))) = [].
Proof.
  apply (proj2 (present_files_are_skipped linux_run) populated_start
           (fst (main linux_run populated_start))).
  - reflexivity.
  - intros vd w1 H. vm_compute in H. injection H as <- _. vm_compute. reflexivity.
  - vm_compute. reflexivity.
Defined.

(** ** The scenario of the specification, run *)

Example scenario_on_linux_submits :
  submitted (trace (snd (main linux_run lazy_start)))
  = [(JStr "https://m/client.jar", "out/client.jar");
     (JStr "https://m/glfw.jar", "out/libraries/a/glfw.jar");
     (JStr "https://m/gson.jar", "out/libraries/b/gson.jar");
     (JStr "https://resources.download.minecraft.net/ab/abc123",
      "out/assets/objects/ab/abc123");
     (JStr "https://resources.download.minecraft.net/de/de45",
      "out/assets/objects/de/de45");
     (JStr "https://resources.download.minecraft.net/0f/0f77",
      "out/assets/objects/0f/0f77")].
Proof. vm_compute. reflexivity. Qed.

Example scenario_on_linux_descriptor :
  metas (trace (snd (main linux_run eager_start)))
  = [("out/nelius.meta",
      JObj [("version", JStr "1.20"); ("asset_index_id", JStr "abc");
            ("classpath_relative",
             JArr [JStr "libraries/a/glfw.jar"; JStr "libraries/b/gson.jar"]);
            ("main_class", JStr "net.minecraft.client.main.Main");
            ("assets_dir", JStr "assets")])].
Proof. vm_compute. reflexivity. Qed.

Example scenario_on_linux_downloads :
  downloads (trace (snd (main linux_run eager_start)))
  = [("https://m/client.jar", "out/client.jar");
     ("https://m/glfw.jar", "out/libraries/a/glfw.jar");
     ("https://m/gson.jar", "out/libraries/b/gson.jar");
     ("https://m/abc.json", "out/assets/indexes/abc.json");
     ("https://resources.download.minecraft.net/ab/abc123",
      "out/assets/objects/ab/abc123");
     ("https://resources.download.minecraft.net/de/de45",
      "out/assets/objects/de/de45");
     ("https://resources.download.minecraft.net/0f/0f77",
      "out/assets/objects/0f/0f77")].
Proof. vm_compute. reflexivity. Qed.

(** * More properties of [download_mc.py] *)

(** ** The manifest and the version *)

(** X1. The [for ... else] of [get_version_data] stops at the first entry
    of the manifest whose id is the requested string; later entries with
    the same id are never looked at, and the search fails exactly when no
    entry has that id. *)
Theorem find_version_first_match (vs : list ManifestVersion) (t : string) :
  (∀ v, find_version vs t = Ok v ↔
        ∃ pre post, vs = pre ++ v :: post ∧ mv_id v = JStr t ∧
                    Forall (fun x => mv_id x ≠ JStr t) pre) ∧
  (find_version vs t = Raise not_found ↔ Forall (fun x => mv_id x ≠ JStr t) vs).
Proof.
  assert (Hstr : ∀ x : ManifestVersion,
            is_str t (mv_id x) = true ↔ mv_id x = JStr t).
  { intros x. unfold is_str. destruct (mv_id x); try (split; discriminate).
    rewrite String.eqb_eq. split; congruence. }
  induction vs as [|x vs [IHok IHno]]; simpl.
  - split.
    + intros v. split; [discriminate|].
      intros (pre & post & H & _). by destruct pre.
    + split; [constructor | reflexivity].
  - destruct (is_str t (mv_id x)) eqn:Hx.
    + apply Hstr in Hx. split.
      * intros v. split.
        -- intros [= <-]. exists [], vs. auto.
        -- intros (pre & post & H & Hv & Hpre). destruct pre as [|y pre].
           ++ simpl in H. congruence.
           ++ simpl in H. injection H as <- _. apply Forall_cons in Hpre as [Hy _].
              contradiction.
      * split; [discriminate|]. intros H. apply Forall_cons in H as [H _].
        contradiction.
    + assert (Hne : mv_id x ≠ JStr t).
      { intros H. apply Hstr in H. congruence. }
      split.
      * intros v. rewrite IHok. split.
        -- intros (pre & post & -> & Hv & Hpre). exists (x :: pre), post.
           split; [reflexivity|]. split; [assumption|]. by constructor.
        -- intros (pre & post & H & Hv & Hpre). destruct pre as [|y pre].
           ++ simpl in H. injection H as -> _. contradiction.
           ++ simpl in H. injection H as <- ->. apply Forall_cons in Hpre as [_ Hpre].
              eauto.
      * rewrite IHno. split.
        -- intros H. by constructor.
        -- intros H. by apply Forall_cons in H as [_ H].
Qed.

Lemma mapM_Forall2 {A B} (f : A → result B) (l : list A) : ∀ l',
  mapM f l = Ok l' → Forall2 (fun x y => f x = Ok y) l l'.
Proof.
  induction l as [|x l IH]; intros l' H; simpl in H.
  - injection H as <-. constructor.
  - destruct (f x) as [y|] eqn:Hx; simpl in H; [|discriminate].
    destruct (mapM f l) as [ys|] eqn:Hl; simpl in H; [|discriminate].
    injection H as <-. constructor; auto.
Qed.

Lemma manifest_version_inv it v :
  manifest_version it = Ok v →
  py_getitem it "id" = Ok (mv_id v) ∧ py_getitem it "type" = Ok (mv_type v) ∧
  py_getitem it "url" = Ok (mv_url v).
Proof.
  unfold manifest_version, mbind, result_bind. intros H.
  repeat match type of H with
  | (match ?e with _ => _ end) = _ => destruct e eqn:?; [|discriminate]
  end.
  injection H as <-. auto.
Qed.

(** X2. [get_manifest] keeps the entries of the manifest as they come:
    one [ManifestVersion] for each element of [versions], in the same
    order, with the element's [id], [type] and [url]; and it insists on
    [latest.release] and [latest.snapshot]. *)
Theorem manifest_of_keeps_entries (data : json) (m : Manifest) :
  manifest_of data = Ok m →
  ∃ raw items l,
    py_getitem data "versions" = Ok raw ∧ py_iter raw = Ok items ∧
    Forall2 (fun it v => py_getitem it "id" = Ok (mv_id v) ∧
                         py_getitem it "type" = Ok (mv_type v) ∧
                         py_getitem it "url" = Ok (mv_url v))
            items (versions m) ∧
    py_getitem data "latest" = Ok l ∧
    py_getitem l "release" = Ok (release (latest m)) ∧
    py_getitem l "snapshot" = Ok (snapshot (latest m)).
Proof.
  unfold manifest_of, mbind, result_bind. intros H.
  destruct (py_getitem data "versions") as [raw|] eqn:Hraw; [|discriminate].
  destruct (py_iter raw) as [items|] eqn:Hit; [|discriminate].
  destruct (mapM manifest_version items) as [vs|] eqn:Hvs; [|discriminate].
  destruct (py_getitem data "latest") as [l|] eqn:Hl; [|discriminate].
  destruct (py_getitem l "release") as [r|] eqn:Hr; [|discriminate].
  destruct (py_getitem l "snapshot") as [s|] eqn:Hs; [|discriminate].
  injection H as <-. simpl. exists raw, items, l.
  repeat split; try assumption.
  apply mapM_Forall2 in Hvs. eapply Forall2_impl; [exact Hvs|].
  intros it v. apply manifest_version_inv.
Qed.

Lemma manifest_of_scenario :
  ∃ raw items l,
    py_getitem manifest_doc "versions" = Ok raw ∧ py_iter raw = Ok items ∧
    Forall2 (fun it v => py_getitem it "id" = Ok (mv_id v) ∧
                         py_getitem it "type" = Ok (mv_type v) ∧
                         py_getitem it "url" = Ok (mv_url v))
            items (versions scenario_manifest) ∧
    py_getitem manifest_doc "latest" = Ok l ∧
    py_getitem l "release" = Ok (release (latest scenario_manifest)) ∧
    py_getitem l "snapshot" = Ok (snapshot (latest scenario_manifest)).
Proof.
  apply (manifest_of_keeps_entries manifest_doc scenario_manifest). reflexivity.
Defined.



(** ** The libraries *)

(** X4. The list of libraries is built entry by entry: reading two lists
    of entries one after the other gives the libraries of the first
    followed by those of the second, and fails when either fails; there
    are never more libraries than entries. *)
Theorem libraries_of_app (xs ys : list json) :
  (∀ l, libraries_of (xs ++ ys) = Ok l ↔
        ∃ lx ly, libraries_of xs = Ok lx ∧ libraries_of ys = Ok ly ∧ l = lx ++ ly) ∧
  (∀ l, libraries_of xs = Ok l → (length l ≤ length xs)%nat).
Proof.
  split.
  - induction xs as [|x xs IH]; intros l; simpl.
    + split.
      * intros H. exists [], l. auto.
      * intros (lx & ly & [= <-] & H & ->). exact H.
    + destruct (library_of x) as [o|e]; simpl.
      2: { split; [discriminate|]. intros (lx & ly & H & _). discriminate. }
      split.
      * destruct (libraries_of (xs ++ ys)) as [ls|] eqn:Hls; simpl; [|discriminate].
        intros [= <-]. destruct (proj1 (IH ls) eq_refl) as (lx & ly & Hx & Hy & ->).
        rewrite Hx. simpl. destruct o; eexists _, ly; (split; [reflexivity|]); auto.
      * intros (lx & ly & Hx & Hy & ->).
        destruct (libraries_of xs) as [lx'|] eqn:Hxs; simpl in Hx; [|discriminate].
        injection Hx as <-.
        rewrite (proj2 (IH (lx' ++ ly))) by eauto. simpl. by destruct o.
  - induction xs as [|x xs IH]; intros l; simpl.
    + intros [= <-]. simpl. lia.
    + destruct (library_of x) as [o|e]; simpl; [|discriminate].
      destruct (libraries_of xs) as [ls|] eqn:Hls; simpl; [|discriminate].
      intros [= <-]. specialize (IH ls eq_refl). destruct o; simpl; lia.
Qed.

(** X5. The loop over the rules of a library gets through exactly when
    every rule can be asked for an [os] key and, if it has one, holds a
    dict there: a rule such as [{"os": "linux"}] or a rule that is a number
    makes it raise, whatever the other rules are. *)
Theorem scan_rules_gets_through (rules : list json) (system : json) :
  (∃ v, scan_rules rules system = Ok v) ↔ forallb rule_ok rules = true.
Proof.
  revert system. induction rules as [|rule rest IH]; intros system; simpl.
  - split; eauto.
  - unfold rule_ok at 1.
    destruct (py_contains "os" rule) as [[|]|e]; simpl.
    + destruct (py_getitem rule "os") as [os|e]; simpl.
      * destruct os; simpl; try (split; [intros [v H]; discriminate | discriminate]).
        destruct (assoc "name" items); apply IH.
      * split; [intros [v H]; discriminate | discriminate].
    + apply IH.
    + split; [intros [v H]; discriminate | discriminate].
Qed.

(** ** One call of [download_file] *)

Section FrameFacts.

Variable E : Env.

Lemma makedirs_frame p w r w' :
  makedirs E p w = (r, w') →
  fs w ⊆ fs w' ∧ trace w' = trace w ∧ pending w' = pending w ∧ sched w' = sched w.
Proof.
  unfold makedirs. destruct (String.eqb p "").
  - intros H. injection H as _ <-. auto.
  - destruct (mkdirs [] (key E p) (fs w)) as [r1 f1] eqn:Hm.
    intros H. injection H as _ <-. simpl. split; [|auto].
    eapply mkdirs_subseteq; eassumption.
Qed.

Lemma write_file_frame p c w r w' :
  write_file E p c w = (r, w') →
  trace w' = trace w ∧ pending w' = pending w ∧ sched w' = sched w ∧
  (r = Ok tt → exists_in E (fs w') p = true ∧
               node_at E (fs w') p = Some (File c)).
Proof.
  unfold write_file, exists_in, node_at. destruct (String.eqb p "").
  { intros H. injection H as <- <-. repeat split; discriminate. }
  destruct (key E p) as [|x k].
  { intros H. injection H as <- <-. repeat split; discriminate. }
  assert (Hins : ∀ f, <[x :: k := File c]> f !! (x :: k) = Some (File c))
    by (intros; apply lookup_insert_eq).
  destruct (fs w !! (x :: k)) as [[|]|];
    try destruct (parent_is_dir (fs w) (x :: k));
    intros H; injection H as <- <-; simpl; repeat split; try discriminate;
    rewrite ?Hins; auto; apply bool_decide_eq_true; eauto.
Qed.

Lemma session_get_frame url dest w r w' :
  session_get E url dest w = (r, w') →
  fs w' = fs w ∧ pending w' = pending w ∧ sched w' = sched w ∧
  (trace w' = trace w ∨ ∃ u, url = JStr u ∧ trace w' = trace w ++ [EDownload u dest]).
Proof.
  unfold session_get. destruct url; try (intros H; injection H as _ <-; auto).
  unfold mbind, M_bind, log, raise, mret, M_ret. simpl.
  destruct (net E s); intros H; injection H as _ <-; simpl; eauto 10.
Qed.

End FrameFacts.

Lemma download_file_effects
    (E : Env) (url : json) (dest : string) (w : World) (r : result unit) (w' : World) :
  download_file E url dest w = (r, w') →
  fs w ⊆ fs w' ∧ pending w' = pending w ∧ sched w' = sched w ∧
  (trace w' = trace w ∨ ∃ u, url = JStr u ∧ trace w' = trace w ++ [EDownload u dest]) ∧
  (r = Ok tt → exists_in E (fs w') dest = true).
Proof.
  intros H. split; [exact (proj1 (download_file_pool _ _ _ _ _ _ H))|].
  unfold download_file in H.
  apply bind_inv in H as [(present & w1 & H1 & H)|(e & H1 & _)];
    apply path_exists_inv in H1 as [-> H1]; [|discriminate].
  injection H1 as ->.
  destruct (exists_in E (fs w) dest) eqn:Hex.
  { injection H as <- <-. auto. }
  apply bind_inv in H as [(? & w1 & H1 & H)|(e & H1 & ->)];
    apply makedirs_frame in H1 as (_ & Ht1 & Hp1 & Hs1);
    [|repeat split; auto; discriminate].
  apply bind_inv in H as [(resp & w2 & H2 & H)|(e & H2 & ->)];
    apply session_get_frame in H2 as (_ & Hp2 & Hs2 & Ht2); rewrite Ht1 in Ht2;
    [|repeat split; try congruence; discriminate].
  assert (Hw : ∀ c r3 w3, write_file E dest c w2 = (r3, w3) →
            pending w3 = pending w ∧ sched w3 = sched w ∧
            (trace w3 = trace w ∨
             ∃ u, url = JStr u ∧ trace w3 = trace w ++ [EDownload u dest]) ∧
            (r3 = Ok tt → exists_in E (fs w3) dest = true)).
  { intros c r3 w3 H3. apply write_file_frame in H3 as (Ht3 & Hp3 & Hs3 & Hok).
    rewrite Ht3. repeat split; try congruence. intros Hr. by apply Hok. }
  destruct resp.
  - injection H as <- <-. repeat split; try congruence; discriminate.
  - apply bind_inv in H as [(? & w3 & H3 & H)|(e & H3 & ->)];
      apply lift_inv in H3 as [_ ->]; [eauto|].
    repeat split; try congruence; discriminate.
  - apply bind_inv in H as [(? & w3 & H3 & H)|(e & H3 & ->)];
      apply lift_inv in H3 as [_ ->];
      [|repeat split; try congruence; discriminate].
    apply bind_inv in H as [(? & w4 & H4 & H)|(e & H4 & ->)].
    + injection H as <- <-. destruct (Hw _ _ _ H4) as (? & ? & ? & _).
      repeat split; try assumption. discriminate.
    + destruct (Hw _ _ _ H4) as (? & ? & ? & _).
      repeat split; try assumption. discriminate.
Qed.



(** X7. When [download_file] returns normally, either the destination
    was there and nothing happened, or one request was sent, the response
    came whole with a status outside 400..599, and the file now holds its
    body: a body that breaks off never ends in a normal return. *)
Theorem download_file_returns_whole_body
    (E : Env) (url : json) (dest : string) (w w' : World) :
  download_file E url dest w = (Ok tt, w') →
  (exists_in E (fs w) dest = true ∧ w' = w) ∨
  (exists_in E (fs w) dest = false ∧
   ∃ u status content,
     url = JStr u ∧ net E u = Complete status content ∧
     ¬ (400 <= status < 600) ∧
     node_at E (fs w') dest = Some (File content) ∧
     trace w' = trace w ++ [EDownload u dest]).
Proof.
  intros H. unfold download_file in H.
  apply bind_ok in H as (present & w1 & H1 & H).
  apply path_exists_inv in H1 as [-> H1]. injection H1 as ->.
  destruct (exists_in E (fs w) dest) eqn:Hex.
  { injection H as <-. auto. }
  right. split; [reflexivity|].
  apply bind_ok in H as (? & w1 & H1 & H).
  apply makedirs_frame in H1 as (_ & Ht1 & _).
  apply bind_ok in H as (resp & w2 & H2 & H).
  assert (Ht2 : ∃ u, url = JStr u ∧ net E u = resp ∧
                     trace w2 = trace w1 ++ [EDownload u dest]).
  { unfold session_get in H2. destruct url; try discriminate.
    unfold mbind, M_bind, log, raise, mret, M_ret in H2. simpl in H2.
    destruct (net E s) eqn:Hn; try discriminate; injection H2 as <- <-; eauto. }
  destruct Ht2 as (u & -> & Hnet & Ht2).
  destruct resp as [|status content|status received].
  - discriminate.
  - apply bind_ok in H as (? & w3 & H3 & H). apply lift_inv in H3 as [H3 ->].
    apply write_file_frame in H as (Ht3 & _ & _ & Hok).
    exists u, status, content. repeat split; try assumption.
    + intros [Hlo Hhi]. unfold raise_for_status in H3.
      apply Z.leb_le in Hlo. apply Z.ltb_lt in Hhi. rewrite Hlo, Hhi in H3.
      discriminate.
    + by apply Hok.
    + congruence.
  - apply bind_ok in H as (? & w3 & H3 & H).
    apply bind_ok in H as (? & w4 & H4 & H). discriminate.
Qed.

Lemma download_file_returns_whole_body_scenario :
  let run := download_file linux_run (JStr "https://m/client.jar") "out/client.jar"
               lazy_start in
  (exists_in linux_run (fs lazy_start) "out/client.jar" = true ∧ snd run = lazy_start) ∨
  (exists_in linux_run (fs lazy_start) "out/client.jar" = false ∧
   ∃ u status content,
     JStr "https://m/client.jar" = JStr u ∧ net linux_run u = Complete status content ∧
     ¬ (400 <= status < 600) ∧
     node_at linux_run (fs (snd run)) "out/client.jar" = Some (File content) ∧
     trace (snd run) = trace lazy_start ++ [EDownload u "out/client.jar"]).
Proof.
  apply (download_file_returns_whole_body linux_run (JStr "https://m/client.jar")
           "out/client.jar" lazy_start).
  vm_compute. reflexivity.
Defined.

(** ** What every step of a run keeps *)

Lemma rel_raise (R : World → World → Prop) `{!Reflexive R} {A} e : rel R (@raise A e).
Proof. intros w r w' H. injection H as <- <-. reflexivity. Qed.

Section Generic.

Context (E : Env) (R : World → World → Prop) `{!Reflexive R, !Transitive R}.

Hypothesis R_makedirs : ∀ p, rel R (makedirs E p).
Hypothesis R_download : ∀ u d, rel R (download_file E u d).
Hypothesis R_yield : rel R (yield E).
Hypothesis R_submit : ∀ t, rel R (submit E t).
Hypothesis R_write_meta : ∀ vd cp ad, rel R (write_meta E (meta_path E) vd cp ad).
Hypothesis R_fetch : ∀ w w', fetch_rel w w' → R w w'.
Hypothesis R_drain : ∀ q w, pending w = q → R w (drain E q w).

Lemma libraries_loop_respects d libs : ∀ cp, rel R (libraries_loop E d libs cp).
Proof.
  induction libs as [|l libs IH]; intros cp; simpl.
  - by apply rel_ret.
  - destruct (skipped_on (platform_system E) l); [apply IH|].
    apply rel_bind; [assumption | by apply rel_lift | intros ?].
    apply rel_bind; [assumption | apply R_submit | intros ?].
    apply rel_bind; [assumption | by apply rel_lift | intros ?].
    apply IH.
Qed.

Lemma objects_loop_respects d objects : rel R (objects_loop E d objects).
Proof.
  induction objects as [|o objects IH]; simpl.
  - by apply rel_ret.
  - apply rel_bind; [assumption | by apply rel_lift | intros ?].
    apply rel_bind; [assumption | by apply rel_lift | intros ?].
    apply rel_bind; [assumption | apply R_submit | intros ?].
    apply IH.
Qed.

Lemma read_file_respects p : rel R (read_file E p).
Proof. intros w r w' H. apply read_file_inv in H as ->. reflexivity. Qed.

Lemma download_minecraft_structure_respects vd :
  rel R (download_minecraft_structure E vd).
Proof.
  unfold download_minecraft_structure.
  repeat (apply rel_bind;
    [ assumption
    | first [ apply R_makedirs | apply R_submit | apply libraries_loop_respects
            | apply R_download | apply R_yield | apply read_file_respects
            | apply objects_loop_respects | by apply rel_lift ]
    | intros ? ]).
  apply R_write_meta.
Qed.

Lemma with_executor_respects {A} (block : M A) :
  rel R block → rel R (with_executor E block).
Proof.
  intros Hb w r w' H. unfold with_executor in H.
  destruct (block w) as [r1 w1] eqn:H1.
  destruct (yield E w1) as [r2 w2] eqn:H2. injection H as _ <-.
  etrans; [exact (Hb _ _ _ H1)|]. etrans; [exact (R_yield _ _ _ H2)|].
  by apply R_drain.
Qed.

Lemma main_respects : rel R (main E).
Proof.
  unfold main.
  apply rel_bind; [assumption | | intros ?].
  { destruct (String.eqb (output_dir E) ""); [by apply rel_raise | by apply rel_ret]. }
  apply rel_bind; [assumption | | intros ?].
  { destruct (String.eqb (mc_version E) ""); [by apply rel_raise | by apply rel_ret]. }
  apply rel_bind; [assumption | | intros vd].
  { intros w r w' H. apply R_fetch. by apply get_version_data_fetch in H. }
  apply with_executor_respects, download_minecraft_structure_respects.
Qed.

End Generic.

(** ** A run keeps the files and its accounts *)

Section OrderlyFacts.

Context (E : Env) (km : path).

#[local] Instance orderly_refl : Reflexive (orderly E km).
Proof. intros w. split; [auto|]. split; auto. Qed.

#[local] Instance orderly_trans : Transitive (orderly E km).
Proof.
  intros w1 w2 w3 (Hk1 & Hg1 & Ht1) (Hk2 & Hg2 & Ht2).
  split; [|split]; eauto.
Qed.

Lemma submitted_app tr tr' : submitted (tr ++ tr') = submitted tr ++ submitted tr'.
Proof. apply flat_map_app. Qed.

Lemma finished_app tr tr' : finished (tr ++ tr') = finished tr ++ finished tr'.
Proof. apply flat_map_app. Qed.

Lemma silent_projections tr evs :
  silent evs →
  submitted (tr ++ evs) = submitted tr ∧ finished (tr ++ evs) = finished tr ∧
  ∀ t r, In (EDone t r) (tr ++ evs) → In (EDone t r) tr.
Proof.
  intros Hs. unfold submitted, finished. rewrite !flat_map_app.
  induction Hs as [|e evs He _ (IH1 & IH2 & IH3)]; simpl.
  - rewrite ?app_nil_r. repeat split. intros t r. by rewrite ?app_nil_r.
  - destruct e; try contradiction; simpl; repeat split; try assumption;
      intros t r Hin; apply in_app_or in Hin as [Hin|[Hin|Hin]];
      try discriminate; auto; apply IH3, in_or_app; auto.
Qed.

(** A step that only adds nodes, or replaces the one at [km], and is
    silent in the trace. *)
Lemma orderly_step w w' evs :
  (∀ k n, k ≠ km → fs w !! k = Some n → fs w' !! k = Some n) →
  (∀ p, exists_in E (fs w) p = true → exists_in E (fs w') p = true) →
  pending w' = pending w → trace w' = trace w ++ evs → silent evs →
  orderly E km w w'.
Proof.
  intros Hk Hg Hp Ht Hs. split; [assumption|]. split; [assumption|].
  destruct (silent_projections (trace w) evs Hs) as (Hsub & Hfin & Hdone).
  intros [Hacc HJ]. split.
  - by rewrite Ht, Hsub, Hfin, Hp.
  - intros t Hin. rewrite Ht in Hin. auto.
Qed.

Lemma orderly_frame w w' evs :
  fs w ⊆ fs w' → pending w' = pending w → trace w' = trace w ++ evs → silent evs →
  orderly E km w w'.
Proof.
  intros Hsub. apply orderly_step.
  - intros k n _ Hl. eapply lookup_weaken; eassumption.
  - intros p. by apply exists_in_mono.
Qed.

Lemma makedirs_orderly p : rel (orderly E km) (makedirs E p).
Proof.
  intros w r w' H. apply makedirs_frame in H as (Hf & Ht & Hp & _).
  apply (orderly_frame _ _ []); auto; [by rewrite app_nil_r | constructor].
Qed.

Lemma download_file_orderly u d : rel (orderly E km) (download_file E u d).
Proof.
  intros w r w' H. apply download_file_effects in H as (Hf & Hp & _ & Ht & _).
  destruct Ht as [Ht | (u' & _ & Ht)].
  - apply (orderly_frame _ _ []); auto; [by rewrite app_nil_r | constructor].
  - apply (orderly_frame _ _ [EDownload u' d]); auto. by repeat constructor.
Qed.

Lemma fetch_orderly w w' : fetch_rel w w' → orderly E km w w'.
Proof.
  intros (Hf & Hp & _ & evs & Ht & Hall).
  apply (orderly_frame _ _ evs); auto; [by rewrite Hf|].
  eapply Forall_impl; [exact Hall|]. by intros e [u ->].
Qed.

Lemma run_task_orderly t q w :
  pending w ≡ₚ t :: q →
  orderly E km w (run_task E t (set_pending q w)).
Proof.
  intros Hq. unfold run_task.
  destruct (download_file E t.1 t.2 (set_pending q w)) as [r w1] eqn:H.
  apply download_file_effects in H as (Hf & Hp & _ & Ht & Hok). simpl in *.
  assert (Hev : ∃ evs, trace w1 = trace w ++ evs ∧ silent evs).
  { destruct Ht as [Ht | (u' & _ & Ht)].
    - exists []. split; [by rewrite app_nil_r | constructor].
    - exists [EDownload u' t.2]. split; [assumption | by repeat constructor]. }
  destruct Hev as (evs & Hev & Hs).
  destruct (silent_projections (trace w) evs Hs) as (Hsub & Hfin & Hdone).
  split; [|split]; simpl.
  - intros k n _ Hl. eapply lookup_weaken; eassumption.
  - intros p. by apply exists_in_mono.
  - intros [Hacc HJ]. split; simpl.
    + rewrite submitted_app, finished_app, Hev, Hsub, Hfin, Hp. simpl.
      rewrite app_nil_r, Hacc, Hq. by rewrite <- app_assoc.
    + intros t' Hin. apply in_app_or in Hin as [Hin|[Hin|[]]].
      * rewrite Hev in Hin. apply Hdone, HJ in Hin.
        eapply exists_in_mono; eassumption.
      * injection Hin as <- ->. by apply Hok.
Qed.

Lemma pool_step_orderly w i : orderly E km w (pool_step E w i).
Proof.
  unfold pool_step. destruct (pending w !! _) as [t|] eqn:Hl; [|reflexivity].
  apply run_task_orderly. by apply delete_Permutation.
Qed.

Lemma foldl_orderly picks : ∀ w, orderly E km w (foldl (pool_step E) w picks).
Proof.
  induction picks as [|i picks IH]; intros w; simpl; [reflexivity|].
  etrans; [apply pool_step_orderly | apply IH].
Qed.

Lemma yield_orderly : rel (orderly E km) (yield E).
Proof.
  intros w r w' H. unfold yield in H. destruct (sched w) as [|picks rest].
  - injection H as _ <-. reflexivity.
  - injection H as _ <-. etrans; [|apply foldl_orderly].
    apply (orderly_frame _ _ []); simpl; auto; [by rewrite app_nil_r | constructor].
Qed.

Lemma run_task_pending t w : pending (run_task E t w) = pending w.
Proof.
  unfold run_task. destruct (download_file E t.1 t.2 w) as [r w1] eqn:H.
  by apply download_file_effects in H as (_ & Hp & _).
Qed.

Lemma drain_orderly q : ∀ w, pending w = q → orderly E km w (drain E q w).
Proof.
  induction q as [|t q IH]; intros w Hq; simpl; [reflexivity|].
  etrans; [apply (run_task_orderly t q); by rewrite Hq|].
  apply IH. by rewrite run_task_pending.
Qed.

Lemma drain_pending q : ∀ w, pending w = q → pending (drain E q w) = [].
Proof.
  induction q as [|t q IH]; intros w Hq; simpl; [assumption|].
  apply IH. by rewrite run_task_pending.
Qed.

Lemma submit_orderly t : rel (orderly E km) (submit E t).
Proof.
  intros w r w' H. unfold submit, mbind, M_bind, log in H. simpl in H.
  destruct (yield E _) as [r1 w1] eqn:Hy in H.
  assert (Hw : w' = w1) by (destruct r1; by injection H). subst w1.
  etrans; [|exact (yield_orderly _ _ _ Hy)].
  split; [|split]; simpl; auto.
  intros [Hacc HJ]. split; simpl.
  - rewrite submitted_app, finished_app. simpl.
    rewrite app_nil_r, Hacc. by rewrite !app_assoc.
  - intros t' Hin. apply in_app_or in Hin as [Hin|[Hin|[]]]; [auto | discriminate].
Qed.

End OrderlyFacts.

#[local] Existing Instance orderly_refl.
#[local] Existing Instance orderly_trans.

Section MetaFacts.

Variable E : Env.

Lemma write_file_other p c w r w' :
  write_file E p c w = (r, w') → ∀ k, k ≠ key E p → fs w' !! k = fs w !! k.
Proof.
  unfold write_file. intros H k Hk.
  destruct (String.eqb p ""); [by injection H as _ <-|].
  destruct (key E p) as [|x kp]; [by injection H as _ <-|].
  destruct (fs w !! (x :: kp)) as [[|]|];
    try destruct (parent_is_dir (fs w) (x :: kp));
    injection H as _ <-; simpl; try reflexivity; by rewrite lookup_insert_ne.
Qed.

Lemma write_file_orderly p c :
  rel (orderly E (key E p)) (write_file E p c).
Proof.
  intros w r w' H.
  pose proof (write_file_other _ _ _ _ _ H) as Hother.
  apply write_file_dom in H as (Ht & Hp & Hg).
  apply (orderly_step _ _ _ _ []); auto; [|by rewrite app_nil_r | constructor].
  intros k n Hk Hl. by rewrite Hother.
Qed.

Lemma write_meta_orderly vd cp ad :
  rel (orderly E (key E (meta_path E))) (write_meta E (meta_path E) vd cp ad).
Proof.
  unfold write_meta.
  apply rel_bind; [typeclasses eauto | apply write_file_orderly | intros ?].
  apply rel_bind; [typeclasses eauto | apply rel_lift; typeclasses eauto | intros ?].
  apply rel_bind; [typeclasses eauto | apply write_file_orderly | intros ?].
  intros w r w' H. injection H as _ <-.
  apply (orderly_step _ _ _ _ [EMeta (meta_path E) (descriptor E vd cp a0)]);
    simpl; auto. by repeat constructor.
Qed.

Lemma main_orderly : rel (orderly E (key E (meta_path E))) (main E).
Proof.
  apply main_respects; try typeclasses eauto.
  - apply makedirs_orderly.
  - apply download_file_orderly.
  - apply yield_orderly.
  - apply submit_orderly.
  - apply write_meta_orderly.
  - apply fetch_orderly.
  - apply drain_orderly.
Qed.

Lemma main_pending w r w' : pending w = [] → main E w = (r, w') → pending w' = [].
Proof.
  intros Hp H. unfold main in H.
  apply bind_inv in H as [(? & w1 & H1 & H)|(e & H1 & ->)].
  2: { destruct (String.eqb (output_dir E) ""); [|discriminate].
       by injection H1 as _ <-. }
  assert (w1 = w) as ->.
  { destruct (String.eqb (output_dir E) ""); [discriminate|]. by injection H1. }
  clear H1.
  apply bind_inv in H as [(? & w1 & H1 & H)|(e & H1 & ->)].
  2: { destruct (String.eqb (mc_version E) ""); [|discriminate].
       by injection H1 as _ <-. }
  assert (w1 = w) as ->.
  { destruct (String.eqb (mc_version E) ""); [discriminate|]. by injection H1. }
  clear H1.
  apply bind_inv in H as [(vd & w1 & H1 & H)|(e & H1 & ->)];
    apply get_version_data_fetch in H1 as (_ & Hp1 & _); [|congruence].
  unfold with_executor in H.
  destruct (download_minecraft_structure E vd w1) as [r1 w2].
  destruct (yield E w2) as [r2 w3]. injection H as _ <-.
  by apply drain_pending.
Qed.

End MetaFacts.



(** X9. When the script ends, however it ends, the pool is empty and
    every task submitted has run exactly once; and the destination of
    every task that returned normally is on disk. *)
Theorem every_submitted_task_has_run
    (E : Env) (w : World) (r : result unit) (w' : World) :
  trace w = [] → pending w = [] →
  main E w = (r, w') →
  pending w' = [] ∧
  submitted (trace w') ≡ₚ finished (trace w') ∧
  ∀ t, In (EDone t (Ok tt)) (trace w') → exists_in E (fs w') (snd t) = true.
Proof.
  intros Ht Hp H. pose proof (main_pending _ _ _ _ Hp H) as Hp'.
  apply main_orderly in H as (_ & _ & Htidy).
  destruct Htidy as [Hacc HJ].
  { split; rewrite Ht, ?Hp; simpl; [reflexivity | contradiction]. }
  rewrite Hp', app_nil_r in Hacc. auto.
Qed.

Lemma every_submitted_task_has_run_scenario :
  pending (snd (main gson_broken eager_start)) = [] ∧
  submitted (trace (snd (main gson_broken eager_start)))
  ≡ₚ finished (trace (snd (main gson_broken eager_start))) ∧
  ∀ t, In (EDone t (Ok tt)) (trace (snd (main gson_broken eager_start))) →
       exists_in gson_broken (fs (snd (main gson_broken eager_start))) (snd t) = true.
Proof.
  apply (every_submitted_task_has_run gson_broken eager_start
           (fst (main gson_broken eager_start))).
  - reflexivity.
  - reflexivity.
  - vm_compute. reflexivity.
Defined.

(** ** Running the script again *)

Ltac via_rel H R :=
  match type of H with
  | ?m _ = _ =>
      let Hrel := fresh "Hrel" in
      assert (Hrel : rel R m); [ | exact (Hrel _ _ _ H)]
  end.

Section AgainFacts.

Variable E : Env.

Lemma object_tasks_each dir objects : ∀ ts o,
  object_tasks dir objects = Ok ts → In o objects →
  ∃ t, (h ← py_getitem o "hash"; object_task dir h) = Ok t ∧ In t ts.
Proof.
  unfold object_tasks.
  induction objects as [|x objects IH]; intros ts o Hts Hin; [contradiction|].
  simpl in Hts.
  destruct (py_getitem x "hash" ≫= _) as [tx|] eqn:Hx; simpl in Hts; [|discriminate].
  destruct (mapM _ objects) as [ts'|] eqn:Hm; simpl in Hts; [|discriminate].
  injection Hts as <-. destruct Hin as [->|Hin].
  - exists tx. split; [assumption | by left].
  - destruct (IH _ _ eq_refl Hin) as (t & Ht & Hin'). exists t. split; [assumption|].
    by right.
Qed.

(** What a successful [download_minecraft_structure] has read and
    submitted. *)
Lemma download_minecraft_structure_ok_index vd w w' :
  download_minecraft_structure E vd w = (Ok tt, w') →
  ∃ index objects vals ots,
    py_getitem index "objects" = Ok objects ∧ py_values objects = Ok vals ∧
    object_tasks (objects_directory_of E) vals = Ok ots ∧
    submitted (trace w') =
      submitted (trace w) ++
      client_task E vd :: map (library_task E) (kept E (libraries vd)) ++ ots ∧
    exists_in E (fs w') (asset_index_path_of E vd) = true ∧
    (node_at E (fs w') (asset_index_path_of E vd) = Some (File (Doc index)) ∨
     key E (asset_index_path_of E vd) = key E (meta_path E)).
Proof.
  unfold download_minecraft_structure.
  fold (asset_index_path_of E vd). fold (objects_directory_of E). intros H.
  apply bind_ok in H as (? & w1 & H1 & H).
  apply makedirs_pool, pool_main in H1.
  apply bind_ok in H as (? & w2 & H2 & H).
  apply makedirs_pool, pool_main in H2.
  apply bind_ok in H as (? & w3 & H3 & H).
  apply makedirs_pool, pool_main in H3.
  apply bind_ok in H as (? & w4 & H4 & H).
  apply makedirs_pool, pool_main in H4.
  apply bind_ok in H as (? & w5 & H5 & H).
  apply submit_main in H5 as [_ H5].
  apply bind_ok in H as (cp & w6 & H6 & H).
  apply libraries_loop_spec in H6 as (ts & H6 & Hcp).
  destruct (Hcp cp eq_refl) as (-> & -> & Hall). clear Hcp.
  apply bind_ok in H as ([] & w7 & H7 & H).
  pose proof (download_file_effects _ _ _ _ _ _ H7) as (_ & _ & _ & _ & Hex7).
  specialize (Hex7 eq_refl).
  apply download_file_pool, pool_main in H7.
  apply bind_ok in H as (? & w8 & H8 & H).
  pose proof (yield_orderly E (key E (meta_path E)) _ _ _ H8) as (_ & Hg8 & _).
  apply yield_pool, pool_main in H8.
  apply bind_ok in H as (content & w9 & H9 & H).
  pose proof (read_file_inv _ _ _ _ _ H9) as ->.
  apply read_file_ok in H9.
  assert (Hrest : orderly E (key E (meta_path E)) w8 w').
  { revert H. generalize (Ok ()). intros r H. via_rel H (orderly E (key E (meta_path E))).
    apply rel_bind; [typeclasses eauto | apply yield_orderly | intros ?].
    apply rel_bind; [typeclasses eauto | apply rel_lift; typeclasses eauto | intros ?].
    apply rel_bind; [typeclasses eauto | apply rel_lift; typeclasses eauto | intros ?].
    apply rel_bind; [typeclasses eauto | apply rel_lift; typeclasses eauto | intros ?].
    apply rel_bind; [typeclasses eauto | | intros ?].
    { apply objects_loop_respects; try typeclasses eauto. apply submit_orderly. }
    apply write_meta_orderly. }
  destruct Hrest as (Hk & Hg & _).
  apply bind_ok in H as (? & w10 & H10 & H).
  apply yield_pool, pool_main in H10.
  apply bind_ok in H as (index & w11 & H11 & H). apply lift_inv in H11 as [H11 ->].
  destruct content as [j|]; [|discriminate]. injection H11 as ->.
  apply bind_ok in H as (objects & w12 & H12 & H). apply lift_inv in H12 as [H12 ->].
  apply bind_ok in H as (vals & w13 & H13 & H). apply lift_inv in H13 as [H13 ->].
  apply bind_ok in H as ([] & w14 & H14 & H).
  apply objects_loop_spec in H14 as (ots & H14 & Hots). specialize (Hots eq_refl).
  apply write_meta_ok in H as [Ht Hn].
  2: { intros Hj. apply join_empty in Hj as [_ Hj]. discriminate. }
  pose proof (main_rel_trans _ _ _ _ _ H1
    (main_rel_trans _ _ _ _ _ H2
    (main_rel_trans _ _ _ _ _ H3
    (main_rel_trans _ _ _ _ _ H4
    (main_rel_trans _ _ _ _ _ H5
    (main_rel_trans _ _ _ _ _ H6
    (main_rel_trans _ _ _ _ _ H7
    (main_rel_trans _ _ _ _ _ H8
    (main_rel_trans _ _ _ _ _ H10 H14))))))))) as [Hs Hm].
  simpl in Hs.
  exists index, objects, vals, ots. repeat split; try assumption.
  - rewrite Ht, submitted_app. simpl. rewrite app_nil_r. exact Hs.
  - auto.
  - destruct (decide (key E (asset_index_path_of E vd) = key E (meta_path E)))
      as [Heq|Hne]; [by right|]. left.
    unfold node_at in *. destruct (key E (asset_index_path_of E vd)); [discriminate|].
    by apply Hk.
Qed.

Lemma finished_in tr t : In t (finished tr) → ∃ r, In (EDone t r) tr.
Proof.
  unfold finished. intros H. apply in_flat_map in H as (e & He & Ht).
  destruct e; try contradiction. destruct Ht as [<-|[]]. eauto.
Qed.

Lemma failed_nil tr t r : failed tr = [] → In (EDone t r) tr → r = Ok tt.
Proof.
  intros Hf Hin. destruct r as [[]|e]; [reflexivity|].
  assert (Hin' : In t (failed tr)).
  { unfold failed. apply in_flat_map. exists (EDone t (Raise e)). split; [assumption|].
    by left. }
  rewrite Hf in Hin'. contradiction.
Qed.

(** What [get_version_data] returns depends on the network alone. *)
Lemma get_version_data_result t w wb :
  fst (get_version_data E t w) = fst (get_version_data E t wb).
Proof.
  unfold get_version_data, get_manifest, requests_get_json, mbind, M_bind, log, lift,
    raise.
  simpl. destruct (net E MANIFEST_URL) as [|s1 [data|]|]; simpl; try reflexivity.
  destruct (manifest_of data) as [m|]; simpl; try reflexivity.
  destruct (find_version (versions m) t) as [v|]; simpl; try reflexivity.
  destruct (mv_url v); simpl; try reflexivity.
  destruct (net E s) as [|s2 [d|]|]; simpl; reflexivity.
Qed.

(** A run that ends well, none of its tasks having raised, leaves every
    destination it computed on disk. *)
Lemma successful_run_populates w w' :
  trace w = [] → pending w = [] →
  main E w = (Ok tt, w') → failed (trace w') = [] →
  ∃ vd w1, get_version_data E (mc_version E) w = (Ok vd, w1) ∧
           populated E (fs w') vd = true.
Proof.
  intros Ht Hp H Hfail.
  pose proof (main_pending _ _ _ _ Hp H) as Hp'.
  pose proof (main_orderly _ _ _ _ H) as (_ & _ & Htidy).
  destruct Htidy as [Hacc HJ].
  { split; rewrite Ht, ?Hp; simpl; [reflexivity | contradiction]. }
  rewrite Hp', app_nil_r in Hacc.
  assert (Hdone : ∀ t, In t (submitted (trace w')) →
                       exists_in E (fs w') (snd t) = true).
  { intros t Hin. apply list_elem_of_In in Hin. rewrite Hacc in Hin.
    apply list_elem_of_In, finished_in in Hin as [r Hin].
    pose proof (failed_nil _ _ _ Hfail Hin) as ->. by apply HJ. }
  unfold main in H.
  apply bind_ok in H as (? & w0 & H0 & H).
  assert (w0 = w) as ->.
  { destruct (String.eqb (output_dir E) ""); [discriminate|]. by injection H0. }
  clear H0.
  apply bind_ok in H as (? & w0 & H0 & H).
  assert (w0 = w) as ->.
  { destruct (String.eqb (mc_version E) ""); [discriminate|]. by injection H0. }
  clear H0.
  apply bind_ok in H as (vd & w1 & H1 & H).
  exists vd, w1. split; [assumption|].
  apply get_version_data_fetch, fetch_rel_projections in H1 as (Hs1 & _ & _).
  rewrite Ht in Hs1. simpl in Hs1.
  apply with_executor_inv in H as (w2 & H & [Hsub (evs & Htr & Hq)]).
  pose proof (download_minecraft_structure_ok _ _ _ _ H) as (_ & _ & _ & Hmeta).
  apply download_minecraft_structure_ok_index in H
    as (index & objects & vals & ots & Hobj & Hvals & Hots & Hs & Hex & Hidx).
  rewrite Hs1 in Hs. simpl in Hs.
  assert (Hs' : submitted (trace w') =
                client_task E vd :: map (library_task E) (kept E (libraries vd)) ++ ots).
  { by rewrite Htr, quiet_submitted. }
  rewrite Hs' in Hdone.
  unfold populated. fold (asset_index_path_of E vd). fold (objects_directory_of E).
  repeat (apply andb_true_iff; split).
  - apply (Hdone (client_task E vd)). by left.
  - apply forallb_forall. intros l Hl.
    apply (Hdone (library_task E l)). right. apply in_or_app. left. by apply in_map.
  - eapply exists_in_mono; eassumption.
  - destruct Hidx as [Hidx|Hkey].
    + rewrite (node_at_weaken _ _ _ _ _ Hsub Hidx). rewrite Hobj. simpl. rewrite Hvals.
      apply forallb_forall. intros o Ho.
      destruct (object_tasks_each _ _ _ _ Hots Ho) as (t & Hto & Hin).
      rewrite Hto. apply Hdone. right. apply in_or_app. by right.
    + apply (node_at_weaken _ _ _ _ _ Hsub) in Hmeta.
      assert (Hsame : node_at E (fs w') (asset_index_path_of E vd)
                      = node_at E (fs w') (meta_path E)).
      { unfold node_at. by rewrite Hkey. }
      rewrite Hsame, Hmeta. reflexivity.
Qed.

(** A run in a populated directory sends no download request. *)
Lemma populated_run_downloads_nothing w r w' vd w1 :
  pending w = [] →
  get_version_data E (mc_version E) w = (Ok vd, w1) →
  populated E (fs w) vd = true →
  main E w = (r, w') →
  downloads (trace w') = downloads (trace w).
Proof.
  intros Hp Hvd Hpop H. unfold main in H.
  apply bind_inv in H as [(? & w0 & H0 & H)|(e & H0 & ->)].
  2: { destruct (String.eqb (output_dir E) ""); [|discriminate].
       by injection H0 as _ <-. }
  assert (w0 = w) as ->.
  { destruct (String.eqb (output_dir E) ""); [discriminate|]. by injection H0. }
  clear H0.
  apply bind_inv in H as [(? & w0 & H0 & H)|(e & H0 & ->)].
  2: { destruct (String.eqb (mc_version E) ""); [|discriminate].
       by injection H0 as _ <-. }
  assert (w0 = w) as ->.
  { destruct (String.eqb (mc_version E) ""); [discriminate|]. by injection H0. }
  clear H0.
  unfold mbind, M_bind in H. rewrite Hvd in H.
  apply get_version_data_fetch in Hvd.
  pose proof (fetch_rel_projections _ _ Hvd) as (_ & _ & Hd1).
  destruct Hvd as (Hfs & Hpend & _).
  pose proof (with_executor_calm E _ (fs w)
                (download_minecraft_structure_calm E vd (fs w) Hpop) _ _ _ H) as Hc.
  destruct Hc as [_ Hd];
    [by rewrite Hfs | unfold ready; rewrite Hpend, Hp; constructor | congruence].
Qed.

End AgainFacts.

(** X10. Running the script a second time is free: after a run that ended
    well with none of its tasks raising, a run on the disk it left, in any
    schedule, sends no download request at all; it asks for the manifest
    and the detail document only. *)
Theorem second_run_sends_no_download
    (E : Env) (w w' : World) (schedule : list (list nat))
    (r2 : result unit) (w2' : World) :
  trace w = [] → pending w = [] →
  main E w = (Ok tt, w') →
  failed (trace w') = [] →
  main E (second_start w' schedule) = (r2, w2') →
  downloads (trace w2') = [].
Proof.
  intros Ht Hp H Hfail H2.
  destruct (successful_run_populates E _ _ Ht Hp H Hfail) as (vd & w1 & Hvd & Hpop).
  destruct (get_version_data E (mc_version E) (second_start w' schedule))
    as [rv wv] eqn:Hvd2.
  pose proof (get_version_data_result E (mc_version E) w (second_start w' schedule))
    as Hsame.
  rewrite Hvd, Hvd2 in Hsame. simpl in Hsame. subst rv.
  assert (Hd : downloads (trace w2') = downloads (trace (second_start w' schedule))).
  { eapply (populated_run_downloads_nothing E (second_start w' schedule));
      [reflexivity | exact Hvd2 | exact Hpop | exact H2]. }
  exact Hd.
Qed.

Lemma second_run_sends_no_download_scenario :
  downloads (trace (snd (main linux_run
                           (second_start (snd (main linux_run lazy_start))
                              [[2%nat]; []; [0%nat; 0%nat]])))) = [].
Proof.
  apply (second_run_sends_no_download linux_run lazy_start
           (snd (main linux_run lazy_start)) [[2%nat]; []; [0%nat; 0%nat]]
           (fst (main linux_run
                   (second_start (snd (main linux_run lazy_start))
                      [[2%nat]; []; [0%nat; 0%nat]])))).
  - reflexivity.
  - reflexivity.
  - vm_compute. reflexivity.
  - vm_compute. reflexivity.
  - vm_compute. reflexivity.
Defined.

(** * Properties of [nelius_launch.py] *)

Section LaunchFacts.

Variable E : Env.

Lemma launch_minecraft_command vd cp w :
  node_at E (fs w) (meta_path E)
  = Some (File (Doc (descriptor E vd cp (assets_dir_of E)))) →
  launch_minecraft E (meta_path E) w = (Ok (launch_command E vd cp), w).
Proof.
  intros Hn. unfold launch_minecraft, mbind at 1, M_bind.
  rewrite (read_file_at _ _ _ _ (meta_path_nonempty E) Hn).
  unfold mbind, M_bind, lift. simpl json_loads. cbv iota beta.
  rewrite launch_classpath_descriptor. cbv iota beta.
  reflexivity.
Qed.

Lemma classpath_loop_inv game_dir paths : ∀ acc cp,
  classpath_loop E game_dir paths acc = Ok cp →
  Forall is_string paths ∧ length cp = (length acc + length paths)%nat.
Proof.
  induction paths as [|p paths IH]; intros acc cp H; simpl in H.
  - injection H as <-. split; [constructor | simpl; lia].
  - destruct p; try discriminate. simpl in H.
    apply IH in H as [Hall Hlen]. split.
    + constructor; [by eexists | assumption].
    + rewrite Hlen, length_app. simpl. lia.
Qed.

End LaunchFacts.

(** X11. The launcher run on what the downloader left, in the same
    directory and on the same host, starts [java] with the libraries kept
    by the downloader and [client.jar] as classpath, the main class and
    the asset index of the detail document, the version given on the
    downloader's command line, and the assets directory relative to the
    game directory. *)
Theorem launcher_runs_what_was_downloaded
    (E : Env) (vd : VersionData) (w w' : World) :
  with_executor E (download_minecraft_structure E vd) w = (Ok tt, w') →
  nelius_launch_main (meta_path E) E w'
  = (Ok (launch_command E vd
           (map (library_classpath_entry E) (kept E (libraries vd)))), w').
Proof.
  intros H. apply with_executor_inv in H as (w1 & H & [Hsub _]).
  apply download_minecraft_structure_ok in H as (_ & _ & _ & Hn).
  apply (node_at_weaken _ _ _ _ _ Hsub) in Hn.
  unfold nelius_launch_main. rewrite meta_path_nonempty.
  by apply launch_minecraft_command.
Qed.

Lemma launcher_runs_the_scenario :
  nelius_launch_main (meta_path linux_run) linux_run
    (snd (with_executor linux_run
            (download_minecraft_structure linux_run scenario_version_data) lazy_start))
  = (Ok (launch_command linux_run scenario_version_data
           (map (library_classpath_entry linux_run)
              (kept linux_run (libraries scenario_version_data)))),
     snd (with_executor linux_run
            (download_minecraft_structure linux_run scenario_version_data) lazy_start)).
Proof.
  apply (launcher_runs_what_was_downloaded linux_run scenario_version_data lazy_start).
  vm_compute. reflexivity.
Defined.

(** X12. The launcher changes nothing: the world after is the world
    before. When it gets as far as a command, the descriptor was a JSON
    file with the five keys it reads, every entry of [classpath_relative]
    was a string, and the command has nineteen words, one more classpath
    entry than the descriptor lists being folded into the fourth. *)
Theorem launch_minecraft_reads_only
    (E : Env) (p : string) (w : World) (r : result (list json)) (w' : World) :
  launch_minecraft E p w = (r, w') →
  w' = w ∧
  ∀ cmd, r = Ok cmd →
    ∃ meta raw paths cp,
      node_at E (fs w) p = Some (File (Doc meta)) ∧
      py_getitem meta "classpath_relative" = Ok raw ∧ py_iter raw = Ok paths ∧
      Forall is_string paths ∧
      launch_classpath E meta p = Ok cp ∧ length cp = S (length paths) ∧
      cmd !! 3%nat = Some (JStr (str_join (separator_of E) cp)) ∧
      py_getitem meta "main_class" = Ok (nth 4 cmd JNull) ∧
      py_getitem meta "version" = Ok (nth 8 cmd JNull) ∧
      py_getitem meta "assets_dir" = Ok (nth 12 cmd JNull) ∧
      py_getitem meta "asset_index_id" = Ok (nth 14 cmd JNull) ∧
      length cmd = 19%nat.
Proof.
  intros H. unfold launch_minecraft in H.
  apply bind_inv in H as [(content & w1 & H1 & H)|(e & H1 & ->)];
    pose proof (read_file_inv _ _ _ _ _ H1) as ->; [|split; [reflexivity|discriminate]].
  apply read_file_ok in H1.
  apply bind_inv in H as [(meta & w1 & H2 & H)|(e & H2 & ->)];
    apply lift_inv in H2 as [H2 ->]; [|split; [reflexivity|discriminate]].
  destruct content as [j|]; [|discriminate]. injection H2 as ->.
  apply bind_inv in H as [(cp & w1 & H3 & H)|(e & H3 & ->)];
    apply lift_inv in H3 as [H3 ->]; [|split; [reflexivity|discriminate]].
  apply lift_inv in H as [H ->]. split; [reflexivity|].
  intros cmd ->.
  pose proof H3 as Hcp. unfold launch_classpath, mbind, result_bind in H3.
  destruct (py_getitem meta "classpath_relative") as [raw|] eqn:Hraw; [|discriminate].
  destruct (py_iter raw) as [paths|] eqn:Hpaths; [|discriminate].
  destruct (classpath_loop E _ paths []) as [cl|] eqn:Hloop; [|discriminate].
  injection H3 as <-.
  apply classpath_loop_inv in Hloop as [Hall Hlen].
  unfold mbind, result_bind in H.
  destruct (py_getitem meta "main_class") as [mc|] eqn:Hmc; [|discriminate].
  destruct (py_getitem meta "version") as [v|] eqn:Hv; [|discriminate].
  destruct (py_getitem meta "assets_dir") as [ad|] eqn:Had; [|discriminate].
  destruct (py_getitem meta "asset_index_id") as [ai|] eqn:Hai; [|discriminate].
  injection H as <-.
  exists meta, raw, paths, (cl ++ [abspath (getcwd E) (join (dirname (abspath (getcwd E) p))
                                                    "client.jar")]).
  repeat split; try assumption; try reflexivity.
  rewrite length_app, Hlen. simpl. lia.
Qed.

Lemma launch_minecraft_reads_only_scenario :
  let w := snd (main linux_run lazy_start) in
  let run := launch_minecraft linux_run "out/nelius.meta" w in
  snd run = w ∧
  ∀ cmd, fst run = Ok cmd →
    ∃ meta raw paths cp,
      node_at linux_run (fs w) "out/nelius.meta" = Some (File (Doc meta)) ∧
      py_getitem meta "classpath_relative" = Ok raw ∧ py_iter raw = Ok paths ∧
      Forall is_string paths ∧
      launch_classpath linux_run meta "out/nelius.meta" = Ok cp ∧
      length cp = S (length paths) ∧
      cmd !! 3%nat = Some (JStr (str_join (separator_of linux_run) cp)) ∧
      py_getitem meta "main_class" = Ok (nth 4 cmd JNull) ∧
      py_getitem meta "version" = Ok (nth 8 cmd JNull) ∧
      py_getitem meta "assets_dir" = Ok (nth 12 cmd JNull) ∧
      py_getitem meta "asset_index_id" = Ok (nth 14 cmd JNull) ∧
      length cmd = 19%nat.
Proof.
  apply (launch_minecraft_reads_only linux_run "out/nelius.meta"
           (snd (main linux_run lazy_start))).
  vm_compute. reflexivity.
Defined.

(** * More properties of [download_minecraft_structure] *)

Section StructureFacts.

Variable E : Env.

Lemma bind_ext {A B} (m m' : M A) (f g : A → M B) w :
  m w = m' w → (∀ a w1, f a w1 = g a w1) → (m ≫= f) w = (m' ≫= g) w.
Proof.
  intros Hm Hf. unfold mbind, M_bind. rewrite Hm.
  destruct (m' w) as [[a|e] w1]; [apply Hf | reflexivity].
Qed.

Lemma libraries_loop_renamed (names : Library → json) d libs : ∀ cp w,
  libraries_loop E d (map (fun l => with_library_name (names l) l) libs) cp w
  = libraries_loop E d libs cp w.
Proof.
  induction libs as [|l libs IH]; intros cp w; [reflexivity|].
  simpl. change (skipped_on (platform_system E) (with_library_name (names l) l))
    with (skipped_on (platform_system E) l).
  destruct (skipped_on (platform_system E) l); [apply IH|].
  apply bind_ext; [reflexivity | intros dp w1].
  apply bind_ext; [reflexivity | intros ? w2].
  apply bind_ext; [reflexivity | intros rel w3].
  apply IH.
Qed.


Lemma objects_loop_stops dir pre o post e : ∀ ts w,
  object_tasks dir pre = Ok ts →
  task_of_object dir o = Raise e →
  ∃ w', objects_loop E dir (pre ++ o :: post) w = (Raise e, w') ∧
        submitted (trace w') = submitted (trace w) ++ ts ∧
        metas (trace w') = metas (trace w).
Proof.
  induction pre as [|x pre IH]; intros ts w Hts Ho; simpl.
  - injection Hts as <-. exists w. rewrite app_nil_r. split; [|auto].
    unfold task_of_object in Ho. unfold mbind at 1, M_bind, lift.
    destruct (py_getitem o "hash") as [h|]; simpl in Ho.
    + unfold mbind at 1, M_bind. by rewrite Ho.
    + by injection Ho as <-.
  - unfold object_tasks in Hts. simpl in Hts.
    destruct (py_getitem x "hash") as [h|] eqn:Hh; simpl in Hts; [|discriminate].
    destruct (object_task dir h) as [t|] eqn:Ht; simpl in Hts; [|discriminate].
    destruct (mapM _ pre) as [ts'|] eqn:Hpre; simpl in Hts; [|discriminate].
    injection Hts as <-.
    unfold mbind at 1, M_bind, lift. unfold mbind at 1, M_bind. rewrite Ht.
    unfold mbind at 1, M_bind.
    destruct (submit E t w) as [r1 w1] eqn:Hsub.
    apply submit_main in Hsub as [-> [Hs Hm]].
    destruct (IH ts' w1 Hpre Ho) as (w' & Hloop & Hs' & Hm').
    exists w'. split; [exact Hloop|]. split.
    + rewrite Hs', Hs. by rewrite <- app_assoc.
    + congruence.
Qed.

End StructureFacts.

(** X13. The [id] of the detail document and the [name] of every library
    with an artifact must be there for [get_version_data] to return, and
    neither is ever used: [download_minecraft_structure] does the same
    whatever they are. *)
Theorem id_and_names_required_but_unused :
  (∀ d vd, version_data_of d = Ok vd → py_getitem d "id" = Ok (vd_id vd)) ∧
  (∀ raw l, library_of raw = Ok (Some l) →
            py_getitem raw "name" = Ok (library_name l)) ∧
  (∀ E vd i names w,
      download_minecraft_structure E (renamed i names vd) w
      = download_minecraft_structure E vd w).
Proof.
  split; [|split].
  - intros d vd H. unfold version_data_of, mbind, result_bind in H.
    repeat match type of H with
    | (match ?e with _ => _ end) = _ => destruct e eqn:?; [|discriminate]
    end.
    by injection H as <-.
  - intros raw l H. unfold library_of, mbind, result_bind in H.
    repeat match type of H with
    | (match ?e with _ => _ end) = _ => destruct e eqn:?; [|discriminate]
    | (if ?b then _ else _) = _ => destruct b; [|discriminate]
    end.
    by injection H as <-.
  - intros E vd i names w. unfold download_minecraft_structure.
    do 5 (apply bind_ext; [reflexivity | intros ? ?]).
    apply bind_ext; [apply libraries_loop_renamed | intros ? ?].
    reflexivity.
Qed.



(** X15. An object of the index without a usable [hash] stops the loop
    with the exception it causes: the objects listed before it have been
    submitted, those after it have not, and no descriptor is written by
    the loop. *)
Theorem malformed_object_stops_the_loop
    (E : Env) (dir : string) (pre : list json) (o : json) (post : list json)
    (e : exn) (ts : list task) (w : World) :
  object_tasks dir pre = Ok ts →
  task_of_object dir o = Raise e →
  ∃ w', objects_loop E dir (pre ++ o :: post) w = (Raise e, w') ∧
        submitted (trace w') = submitted (trace w) ++ ts ∧
        metas (trace w') = metas (trace w).
Proof. intros. by apply objects_loop_stops. Qed.

Lemma object_without_hash_stops_the_loop :
  ∃ w', objects_loop linux_run "out/assets/objects"
          ([JObj [("hash", JStr "abc123")]] ++ JObj [("size", JNum 3)]
           :: [JObj [("hash", JStr "de45")]]) lazy_start
        = (Raise (KeyError "hash"), w') ∧
        submitted (trace w')
        = submitted (trace lazy_start) ++
          [(JStr "https://resources.download.minecraft.net/ab/abc123",
            "out/assets/objects/ab/abc123")] ∧
        metas (trace w') = metas (trace lazy_start).
Proof.
  apply (malformed_object_stops_the_loop linux_run "out/assets/objects"
           [JObj [("hash", JStr "abc123")]] (JObj [("size", JNum 3)])
           [JObj [("hash", JStr "de45")]]).
  - reflexivity.
  - reflexivity.
Defined.
